(** * pywebpack.manifests: webpack manifest model, factories and loader

    A shallow embedding of [pywebpack/manifests.py].  Python values coming
    out of [json.load] are an inductive type, exceptions are an inductive
    type, a function that may raise returns an [outcome], and the one
    mutable object of the module (a [Manifest] under construction) is
    threaded explicitly through [Manifest.add].

    Conventions.
    - [str] is Rocq's [string]; [lower] acts on the ASCII letters.
    - A Python [dict] read from JSON is an association list in insertion
      order.  Python keeps the keys of a dict pairwise distinct; statements
      that depend on it carry a [NoDup] hypothesis on the keys.
    - [Manifest._entries] is only ever tested, read and written by key, so
      it is a finite map. *)

From Stdlib Require Import ZArith String Ascii List PrimFloat.
From stdpp Require Import base option list gmap strings.

Local Open Scope string_scope.
Local Open Scope Z_scope.

Set Warnings "-register-all".

(** ** Python values and exceptions *)

(** What [json.load] can return. *)
Inductive value : Type :=
| VNone
| VBool (b : bool)
| VInt (n : Z)
| VFloat (f : float)
| VStr (s : string)
| VList (l : list value)
| VDict (d : list (string * value)).

(** The exception classes of the module (all four derive from
    [ManifestError]) and the built-in ones its code can raise. *)
Inductive exn : Type :=
| InvalidManifestError (arg : string)
| UnfinishedManifestError (data : value)
| UnsupportedManifestError (filepath : string)
| UnsupportedExtensionError (p : string)
| KeyError (arg : string)
| AttributeError (msg : string)
| TypeError
| OSError (msg : string)
| ValueError (msg : string).

(** [isinstance(e, ManifestError)]. *)
Definition is_ManifestError (e : exn) : bool :=
  match e with
  | InvalidManifestError _ | UnfinishedManifestError _
  | UnsupportedManifestError _ | UnsupportedExtensionError _ => true
  | _ => false
  end.

Inductive outcome (A : Type) : Type :=
| Ok (a : A)
| Raise (e : exn).
Arguments Ok {A} a.
Arguments Raise {A} e.

#[global] Instance outcome_ret : MRet outcome := @Ok.
#[global] Instance outcome_bind : MBind outcome := λ A B f c,
  match c with
  | Ok a => f a
  | Raise e => Raise e
  end.

#[global] Instance outcome_fmap : FMap outcome := λ A B f c,
  match c with
  | Ok a => Ok (f a)
  | Raise e => Raise e
  end.

(** [try: body except KeyError: handler] *)
Definition except_KeyError {A} (body handler : outcome A) : outcome A :=
  match body with
  | Raise (KeyError _) => handler
  | r => r
  end.

(** [try: body except InvalidManifestError: handler] *)
Definition except_InvalidManifestError {A} (body handler : outcome A) : outcome A :=
  match body with
  | Raise (InvalidManifestError _) => handler
  | r => r
  end.

(** [for x in l: body], the loop state passed along, leaving at the first
    exception. *)
Fixpoint for_each {A S : Type} (body : A → S → outcome S) (l : list A) (s : S)
  : outcome S :=
  match l with
  | [] => Ok s
  | x :: l' => s' ← body x s; for_each body l' s'
  end.

(** [[f(x) for x in l]] *)
Fixpoint comprehension {A B : Type} (f : A → outcome B) (l : list A)
  : outcome (list B) :=
  match l with
  | [] => Ok []
  | x :: l' => y ← f x; ys ← comprehension f l'; Ok (y :: ys)
  end.

(** ** Strings *)

Definition dquote : string := String "034"%char EmptyString.

Definition str1 (c : ascii) : string := String c EmptyString.

(** [s.rfind(c)] for a one-character [c]: the highest index, or [-1]. *)
Fixpoint rfind_from (c : ascii) (s : string) (i last : Z) : Z :=
  match s with
  | EmptyString => last
  | String a s' => rfind_from c s' (i + 1) (if Ascii.eqb a c then i else last)
  end.

Definition rfind (c : ascii) (s : string) : Z := rfind_from c s 0 (-1).

(** [p[:i]] and [p[i:]] for [0 <= i]. *)
Definition str_take (i : Z) (p : string) : string :=
  substring 0 (Z.to_nat i) p.
Definition str_drop (i : Z) (p : string) : string :=
  substring (Z.to_nat i) (String.length p - Z.to_nat i) p.

(** The [while filenameIndex < dotIndex] loop of [genericpath._splitext]:
    [n] iterations remain; [true] when a character other than the dot is
    met, which is where the loop returns the split. *)
Fixpoint splitext_scan (p : string) (filenameIndex : nat) (n : nat) : bool :=
  match n with
  | O => false
  | S n' =>
      match String.get filenameIndex p with
      | Some "."%char => splitext_scan p (S filenameIndex) n'
      | _ => true
      end
  end.

(** [os.path.splitext] (posixpath: [sep = '/'], no [altsep],
    [extsep = '.']). *)
Definition splitext (p : string) : string * string :=
  let sepIndex := rfind "/" p in
  let dotIndex := rfind "." p in
  if (sepIndex <? dotIndex) &&
     splitext_scan p (Z.to_nat (sepIndex + 1)) (Z.to_nat (dotIndex - (sepIndex + 1)))
  then (str_take dotIndex p, str_drop dotIndex p)
  else (p, EmptyString).

Definition lower_ascii (c : ascii) : ascii :=
  let n := nat_of_ascii c in
  if ((65 <=? n) && (n <=? 90))%nat then ascii_of_nat (n + 32) else c.

(** [s.lower()] *)
Fixpoint lower (s : string) : string :=
  match s with
  | EmptyString => EmptyString
  | String c s' => String (lower_ascii c) (lower s')
  end.

(** [tpl.format(arg)] for a template whose only replacement field is one
    [{}]: the text around the field is copied, the field becomes [arg]. *)
Fixpoint format (tpl : string) (arg : string) : string :=
  match tpl with
  | EmptyString => EmptyString
  | String c rest =>
      match c, rest with
      | "{"%char, String "}"%char rest' => arg ++ rest'
      | _, _ => String c (format rest arg)
      end
  end.

(** [''.join(out)] *)
Definition join (out : list string) : string :=
  fold_right String.append EmptyString out.

(** [sub in s] for strings. *)
Fixpoint str_contains (sub s : string) : bool :=
  String.prefix sub s ||
  match s with
  | EmptyString => false
  | String _ s' => str_contains sub s'
  end.

(** ** Operations on Python values *)

(** [type(v).__name__] *)
Definition type_name (v : value) : string :=
  match v with
  | VNone => "NoneType"
  | VBool _ => "bool"
  | VInt _ => "int"
  | VFloat _ => "float"
  | VStr _ => "str"
  | VList _ => "list"
  | VDict _ => "dict"
  end.

(** [d[key]] on the items of a dict. *)
Fixpoint dict_get {V : Type} (key : string) (d : list (string * V)) : option V :=
  match d with
  | [] => None
  | (k, v) :: d' => if String.eqb k key then Some v else dict_get key d'
  end.

Definition keys {V : Type} (d : list (string * V)) : list string := d.*1.

(** [v == s] for a string [s]: only the string [s] itself is equal to it. *)
Definition eq_str (v : value) (s : string) : bool :=
  match v with
  | VStr s' => String.eqb s' s
  | _ => false
  end.

(** [isinstance(v, _string_types)] *)
Definition isinstance_str (v : value) : bool :=
  match v with
  | VStr _ => true
  | _ => false
  end.

(** [v[key]] with a string subscript: a lookup on a dict, a [TypeError] on
    every other type ([list] and [str] take integer indices, the rest are
    not subscriptable). *)
Definition getitem (v : value) (key : string) : outcome value :=
  match v with
  | VDict d =>
      match dict_get key d with
      | Some x => Ok x
      | None => Raise (KeyError key)
      end
  | _ => Raise TypeError
  end.

(** [key in v] with a string [key]. *)
Definition contains (key : string) (v : value) : outcome bool :=
  match v with
  | VDict d => Ok (bool_decide (key ∈ keys d))
  | VList l => Ok (existsb (λ x, eq_str x key) l)
  | VStr s => Ok (str_contains key s)
  | _ => Raise TypeError
  end.

(** [v.items()]: only a dict has the method. *)
Definition items (v : value) : outcome (list (string * value)) :=
  match v with
  | VDict d => Ok d
  | _ => Raise (AttributeError
                  ("'" ++ type_name v ++ "' object has no attribute 'items'"))
  end.

(** What [for x in v] goes through: the elements of a list, the keys of a
    dict, the characters of a string; the other types are not iterable. *)
Definition iter (v : value) : outcome (list value) :=
  match v with
  | VList l => Ok l
  | VDict d => Ok (VStr <$> keys d)
  | VStr s => Ok ((λ c, VStr (str1 c)) <$> list_ascii_of_string s)
  | _ => Raise TypeError
  end.

(** ** ManifestEntry *)

Module ManifestEntry.

(** [_paths] is whatever the factory found in the JSON: no constructor
    checks it. *)
Record t : Type := ManifestEntry { name : string; _paths : value }.

Definition templates : list (string * string) :=
  [ (".js", "<script src=" ++ dquote ++ "{}" ++ dquote ++ "></script>");
    (".css", "<link rel=" ++ dquote ++ "stylesheet" ++ dquote ++ " href="
               ++ dquote ++ "{}" ++ dquote ++ "></link>") ].

(** One turn of the loop of [render]: [out] is the list built so far.
    [splitext] accepts a string only. *)
Definition render_path (p : value) (out : list string) : outcome (list string) :=
  match p with
  | VStr p =>
      let '(_dummy_name, ext) := splitext p in
      match dict_get (lower ext) templates with
      | None => Raise (UnsupportedExtensionError p)
      | Some tpl => Ok (out ++ [format tpl p])%list
      end
  | _ => Raise TypeError
  end.

Definition render (self : t) : outcome string :=
  ps ← iter (_paths self);
  out ← for_each render_path ps [];
  Ok (join out).

Definition __str__ (self : t) : outcome string := render self.

End ManifestEntry.

Abbreviation ManifestEntry := ManifestEntry.ManifestEntry.

(** ** Manifest *)

Module Manifest.

Record t : Type := Manifest { _entries : gmap string ManifestEntry.t }.

(** [Manifest()] *)
Definition __init__ : t := Manifest ∅.

(** [add] changes [self] in place: the result is the outcome of the call
    together with [self] as the call leaves it. *)
Definition add (self : t) (entry : ManifestEntry.t) : outcome unit * t :=
  if bool_decide (is_Some (_entries self !! ManifestEntry.name entry)) then
    (Raise (KeyError (format "Entry {} already present" (ManifestEntry.name entry))),
     self)
  else
    (Ok (), Manifest (<[ManifestEntry.name entry := entry]> (_entries self))).

Definition __getitem__ (self : t) (key : string) : outcome ManifestEntry.t :=
  match _entries self !! key with
  | Some entry => Ok entry
  | None => Raise (KeyError key)
  end.

Definition __getattr__ (self : t) (name : string) : outcome ManifestEntry.t :=
  except_KeyError (__getitem__ self name)
    (Raise (AttributeError (format "Attribute {} does not exists." name))).

(** *** Attribute access [manifest.NAME]

    Python calls [__getattr__] only when the regular lookup finds
    nothing: the instance attribute [_entries], the names bound in the
    class body and the names every object has come first.  The last
    group depends on the interpreter and is a parameter. *)

Inductive attribute : Type :=
| InstanceAttribute (d : gmap string ManifestEntry.t)
| ClassAttribute (name : string)
| ObjectAttribute (name : string)
| Entry (entry : ManifestEntry.t).

Definition class_body : list string :=
  ["__init__"; "add"; "__getitem__"; "__getattr__"].

Definition regular (object_names : list string) (name : string) : bool :=
  String.eqb name "_entries"
  || bool_decide (name ∈ class_body)
  || bool_decide (name ∈ object_names).

Definition getattr (object_names : list string) (self : t) (name : string)
  : outcome attribute :=
  if String.eqb name "_entries" then Ok (InstanceAttribute (_entries self))
  else if bool_decide (name ∈ class_body) then Ok (ClassAttribute name)
  else if bool_decide (name ∈ object_names) then Ok (ObjectAttribute name)
  else Entry <$> __getattr__ self name.

End Manifest.

Abbreviation Manifest := Manifest.Manifest.

(** ** Factories *)

Module ManifestFactory.

Definition create_entry (entry : string) (paths : value) : ManifestEntry.t :=
  ManifestEntry entry paths.

Definition create_manifest : Manifest.t := Manifest.__init__.

(** [manifest.add(entry)] as a statement of a loop whose state is the
    manifest being filled; when it raises, the manifest goes with the
    frame. *)
Definition add_entry (manifest : Manifest.t) (entry : ManifestEntry.t)
  : outcome Manifest.t :=
  match Manifest.add manifest entry with
  | (Ok _, manifest') => Ok manifest'
  | (Raise e, _) => Raise e
  end.

(** A concrete factory class: what a subclass has to provide. *)
Record class : Type := Class { create : value → outcome Manifest.t }.

(** [open_json filepath] stands for [with open(filepath) as fp:
    json.load(fp)]: the parsed document, or the exception of the file
    system or of the decoder. *)
Definition load (cls : class) (open_json : string → outcome value)
    (filepath : string) : outcome Manifest.t :=
  data ← open_json filepath;
  create cls data.

End ManifestFactory.

Module WebpackManifestFactory.
Import ManifestFactory.

Definition create (data : value) : outcome Manifest.t :=
  let manifest := create_manifest in
  its ← items data;
  for_each
    (λ '(entry_name, path) manifest,
       if negb (isinstance_str path) then
         Raise (InvalidManifestError "webpack-manifest-plugin")
       else add_entry manifest (create_entry entry_name (VList [path])))
    its manifest.

Definition cls : class := Class create.

End WebpackManifestFactory.

Module WebpackYamFactory.
Import ManifestFactory.

Definition is_None (v : value) : bool :=
  match v with
  | VNone => true
  | _ => false
  end.

Definition create (data : value) : outcome Manifest.t :=
  '(status, files) ←
    except_KeyError
      (status ← getitem data "status";
       files ← getitem data "files";
       Ok (status, files))
      (Raise (InvalidManifestError "webpack-yam-plugin"));
  if is_None files || negb (eq_str status "built") then
    Raise (UnfinishedManifestError data)
  else
    let manifest := create_manifest in
    its ← items files;
    for_each
      (λ '(entry_name, paths) manifest,
         add_entry manifest (create_entry entry_name paths))
      its manifest.

Definition cls : class := Class create.

End WebpackYamFactory.

Module WebpackBundleTrackerFactory.
Import ManifestFactory.

Definition create (data : value) : outcome Manifest.t :=
  status ←
    except_KeyError (getitem data "status")
      (Raise (InvalidManifestError "webpack-bundle-tracker"));
  has_chunks ← contains "chunks" data;
  if negb has_chunks then
    Raise (InvalidManifestError "webpack-bundle-tracker")
  else if negb (eq_str status "done") then
    Raise (UnfinishedManifestError data)
  else
    let manifest := create_manifest in
    chunks ← getitem data "chunks";
    its ← items chunks;
    for_each
      (λ '(entry_name, paths) manifest,
         xs ← iter paths;
         public_paths ← comprehension (λ x, getitem x "publicPath") xs;
         add_entry manifest (create_entry entry_name (VList public_paths)))
      its manifest.

Definition cls : class := Class create.

End WebpackBundleTrackerFactory.

(** ** Loader *)

Module ManifestLoader.
Import ManifestFactory.

Definition types : list class :=
  [ WebpackBundleTrackerFactory.cls;
    WebpackYamFactory.cls;
    WebpackManifestFactory.cls ].

(** The [for t in cls.types] loop and the [raise] after it. *)
Fixpoint try_types (ts : list class) (data : value) (filepath : string)
  : outcome Manifest.t :=
  match ts with
  | [] => Raise (UnsupportedManifestError filepath)
  | t :: ts' =>
      except_InvalidManifestError (create t data) (try_types ts' data filepath)
  end.

Definition load (open_json : string → outcome value) (filepath : string)
  : outcome Manifest.t :=
  data ← open_json filepath;
  try_types types data filepath.

End ManifestLoader.

(** * Vocabulary of the statements *)

(** [r] is what the loader takes for "wrong shape": an
    [InvalidManifestError]. *)
Definition is_Invalid {A} (r : outcome A) : bool :=
  match r with
  | Raise (InvalidManifestError _) => true
  | _ => false
  end.

(** [isinstance(v, dict)]: the parsed document is a JSON object. *)
Definition is_dict (v : value) : bool :=
  match v with
  | VDict _ => true
  | _ => false
  end.

(** The three factories fill a fresh manifest with a loop of one form:
    compute the paths of the entry from the item, which may raise, then
    [add] the entry.  [filling f] is that loop body for the computation
    [f], and [produced f its k] the entry it stores under [k] for the
    items [its]. *)
Definition filling (f : string → value → outcome value)
  : string * value → Manifest.t → outcome Manifest.t :=
  λ '(k, v) m, p ← f k v; ManifestFactory.add_entry m (ManifestEntry k p).

Definition produced (f : string → value → outcome value)
    (its : list (string * value)) (k : string) : option ManifestEntry.t :=
  v ← dict_get k its;
  match f k v with
  | Ok p => Some (ManifestEntry k p)
  | Raise _ => None
  end.

(** The paths computed by the flat factory and by the bundle-tracker
    factory, as their loop bodies compute them. *)
Definition flat_paths (entry_name : string) (path : value) : outcome value :=
  if isinstance_str path then Ok (VList [path])
  else Raise (InvalidManifestError "webpack-manifest-plugin").

Definition tracker_paths (entry_name : string) (paths : value) : outcome value :=
  xs ← iter paths;
  public_paths ← comprehension (λ x, getitem x "publicPath") xs;
  Ok (VList public_paths).

(** The [publicPath] field of a chunk descriptor, when the descriptor is an
    object that has one. *)
Definition publicPath (x : value) : option value :=
  match x with
  | VDict d => dict_get "publicPath" d
  | _ => None
  end.

(** The [publicPath] fields of a chunk's list of descriptors, in order;
    [None] unless the chunk is a list whose elements all have the field. *)
Definition public_paths (paths : value) : option (list value) :=
  match paths with
  | VList xs => mapM publicPath xs
  | _ => None
  end.

(** A chunk that is a list of objects. *)
Definition well_formed_chunk (paths : value) : bool :=
  match paths with
  | VList xs => forallb is_dict xs
  | _ => false
  end.

(** Some descriptor of the chunk has no ['publicPath']. *)
Definition lacks_publicPath (paths : value) : Prop :=
  ∃ xs, paths = VList xs ∧ Exists (λ x, publicPath x = None) xs.

(** The extension [render] looks up: that of [splitext], in lower case. *)
Definition extension (p : string) : string := lower (splitext p).2.

(** The two tags, written out. *)
Definition script_tag (p : string) : string :=
  "<script src=" ++ dquote ++ p ++ dquote ++ "></script>".

Definition link_tag (p : string) : string :=
  "<link rel=" ++ dquote ++ "stylesheet" ++ dquote ++ " href=" ++ dquote ++ p
    ++ dquote ++ "></link>".

Definition tag (p : string) : string :=
  if String.eqb (extension p) ".js" then script_tag p else link_tag p.

(** The extension of [p] has a template. *)
Definition mapped (p : string) : Prop :=
  extension p = ".js" ∨ extension p = ".css".

(** The names [dir(object)] lists on CPython 3.8, and [__dict__],
    [__module__] and [__weakref__], which the [class] statement adds: one
    value for the parameter of [Manifest.getattr]. *)
Definition cpython_object_names : list string :=
  [ "__class__"; "__delattr__"; "__dict__"; "__dir__"; "__doc__"; "__eq__";
    "__format__"; "__ge__"; "__getattribute__"; "__gt__"; "__hash__";
    "__init_subclass__"; "__le__"; "__lt__"; "__module__"; "__ne__"; "__new__";
    "__reduce__"; "__reduce_ex__"; "__repr__"; "__setattr__"; "__sizeof__";
    "__str__"; "__subclasshook__"; "__weakref__" ].

(** The call or the lookup returned rather than raised. *)
Definition is_Ok {A} (r : outcome A) : bool :=
  match r with
  | Ok _ => true
  | Raise _ => false
  end.

(** Every entry of the manifest is stored under its own name. *)
Definition keyed_by_name (m : Manifest.t) : Prop :=
  ∀ key entry, Manifest.__getitem__ m key = Ok entry → ManifestEntry.name entry = key.

(** [c in s] for a character, and "[s] is made of dots only". *)
Fixpoint occurs (c : ascii) (s : string) : bool :=
  match s with
  | EmptyString => false
  | String a s' => Ascii.eqb a c || occurs c s'
  end.

Fixpoint all_dots (s : string) : bool :=
  match s with
  | EmptyString => true
  | String a s' => Ascii.eqb a "." && all_dots s'
  end.

(** A directory prefix of a path: nothing, or something ending in the
    separator. *)
Definition is_dirname (dir : string) : Prop :=
  dir = EmptyString ∨ ∃ d, dir = d ++ "/".

(** [v] can be iterated over: it is a list, a dict or a string. *)
Definition iterable (v : value) : bool :=
  match v with
  | VList _ | VDict _ | VStr _ => true
  | _ => false
  end.

(** * Properties *)

(** ** The string functions on examples *)

Example splitext_examples :
  splitext "app.js" = ("app", ".js")
  ∧ splitext "static/app.min.CSS" = ("static/app.min", ".CSS")
  ∧ splitext "v1.2/README" = ("v1.2/README", EmptyString)
  ∧ splitext ".htaccess" = (".htaccess", EmptyString)
  ∧ splitext "dist/..hidden.js" = ("dist/..hidden", ".js")
  ∧ splitext "x." = ("x", ".").
Proof. repeat split. Qed.

Example lower_example : lower ".Js" = ".js" ∧ lower ".PNG_2" = ".png_2".
Proof. split; reflexivity. Qed.

Example format_example :
  format "Entry {} already present" "app" = "Entry app already present".
Proof. reflexivity. Qed.

(** ** Dicts as association lists *)

Lemma keys_cons {V} (k : string) (v : V) (d : list (string * V)) :
  keys ((k, v) :: d) = k :: keys d.
Proof. reflexivity. Qed.

Lemma keys_app {V} (d1 d2 : list (string * V)) :
  keys (d1 ++ d2) = (keys d1 ++ keys d2)%list.
Proof. apply fmap_app. Qed.

Lemma dict_get_None {V} (key : string) (d : list (string * V)) :
  dict_get key d = None ↔ key ∉ keys d.
Proof.
  unfold keys. induction d as [|[k v] d IH]; simpl.
  - split; [intros _; apply not_elem_of_nil | done].
  - rewrite not_elem_of_cons. destruct (String.eqb_spec k key) as [->|Hne].
    + split; [done | intros [? _]; done].
    + rewrite IH. split; [intros ?; split; [congruence | done] | intros [_ ?]; done].
Qed.

Lemma dict_get_is_Some {V} (key : string) (d : list (string * V)) :
  is_Some (dict_get key d) ↔ key ∈ keys d.
Proof.
  rewrite <- not_eq_None_Some, dict_get_None.
  split; [apply dec_stable | intros ? ?; done].
Qed.

Lemma dict_get_elem_of {V} (key : string) (v : V) (d : list (string * V)) :
  dict_get key d = Some v → (key, v) ∈ d.
Proof.
  induction d as [|[k x] d IH]; simpl; [done|].
  destruct (String.eqb_spec k key) as [->|Hne].
  - intros [= ->]. apply list_elem_of_here.
  - intros ?. apply list_elem_of_further. auto.
Qed.

(** ** Loops *)

Lemma bind_Ok {A B} (a : A) (f : A → outcome B) : Ok a ≫= f = f a.
Proof. reflexivity. Qed.

Lemma for_each_app {A S} (body : A → S → outcome S) (l1 l2 : list A) (s : S) :
  for_each body (l1 ++ l2) s = for_each body l1 s ≫= for_each body l2.
Proof.
  revert s. induction l1 as [|x l1 IH]; intros s; simpl; [done|].
  destruct (body x s) as [s'|e]; simpl; [apply IH | done].
Qed.

Lemma for_each_ext {A S} (body1 body2 : A → S → outcome S) (l : list A) (s : S) :
  (∀ x s', body1 x s' = body2 x s') → for_each body1 l s = for_each body2 l s.
Proof.
  intros Hext. revert s. induction l as [|x l IH]; intros s; simpl; [done|].
  rewrite Hext. destruct (body2 x s); simpl; [apply IH | done].
Qed.

Lemma comprehension_Forall2 {A B} (f : A → outcome B) (l : list A) (r : list B) :
  Forall2 (λ x y, f x = Ok y) l r → comprehension f l = Ok r.
Proof.
  induction 1 as [|x y l r Hxy _ IH]; simpl; [done|].
  by rewrite Hxy; simpl; rewrite IH.
Qed.

(** ** Filling a manifest *)

Lemma add_entry_fresh (manifest : Manifest.t) (entry : ManifestEntry.t) :
  Manifest._entries manifest !! ManifestEntry.name entry = None →
  ManifestFactory.add_entry manifest entry
  = Ok (Manifest (<[ManifestEntry.name entry := entry]> (Manifest._entries manifest))).
Proof.
  intros Hnone. unfold ManifestFactory.add_entry, Manifest.add.
  rewrite bool_decide_eq_false_2; [done|]. rewrite Hnone. by intros [? ?].
Qed.

Lemma fill_ok (f : string → value → outcome value)
    (its : list (string * value)) (m0 : Manifest.t) :
  NoDup (keys its) →
  (∀ k, k ∈ keys its → Manifest._entries m0 !! k = None) →
  Forall (λ kv, ∃ p, f kv.1 kv.2 = Ok p) its →
  ∃ m, for_each (filling f) its m0 = Ok m ∧
       ∀ k, Manifest._entries m !! k
            = match produced f its k with
              | Some e => Some e
              | None => Manifest._entries m0 !! k
              end.
Proof.
  revert m0. induction its as [|[k v] its IH]; intros m0 Hnd Hfresh Hok.
  - exists m0. split; [done|]. intros k. done.
  - rewrite keys_cons in Hnd. apply NoDup_cons in Hnd as [Hk Hnd].
    apply Forall_cons in Hok as [[p Hp] Hok]. simpl in Hp.
    simpl. rewrite Hp. simpl.
    rewrite add_entry_fresh
      by (simpl; apply Hfresh; rewrite keys_cons; apply list_elem_of_here).
    simpl.
    destruct (IH (Manifest (<[k:=ManifestEntry k p]> (Manifest._entries m0))))
      as (m & Hm & Hlook); [done| |done|].
    { intros k' Hk'. simpl. rewrite lookup_insert_ne.
      - apply Hfresh. rewrite keys_cons. by apply list_elem_of_further.
      - intros ->. done. }
    exists m. split; [done|]. intros k'. rewrite Hlook. unfold produced. simpl.
    destruct (String.eqb_spec k k') as [<-|Hne].
    + apply dict_get_None in Hk. rewrite Hk. simpl.
      rewrite Hp. by rewrite lookup_insert_eq.
    + destruct (dict_get k' its ≫= _); [done|]. by rewrite lookup_insert_ne.
Qed.

Lemma fill_raise (f : string → value → outcome value)
    (pre post : list (string * value)) (k : string) (v : value)
    (e : exn) (m0 : Manifest.t) :
  NoDup (keys (pre ++ (k, v) :: post)) →
  (∀ k', k' ∈ keys (pre ++ (k, v) :: post) → Manifest._entries m0 !! k' = None) →
  Forall (λ kv, ∃ p, f kv.1 kv.2 = Ok p) pre →
  f k v = Raise e →
  for_each (filling f) (pre ++ (k, v) :: post) m0 = Raise e.
Proof.
  intros Hnd Hfresh Hok He. rewrite for_each_app.
  rewrite keys_app in Hnd. apply NoDup_app in Hnd as (Hnd & _ & _).
  destruct (fill_ok f pre m0) as (m & -> & _); [done| |done|].
  { intros k' Hk'. apply Hfresh. rewrite keys_app. apply elem_of_app. by left. }
  simpl. by rewrite He.
Qed.

(** ** The loader's search *)

Lemma except_Invalid_caught {A} (body handler : outcome A) :
  is_Invalid body = true → except_InvalidManifestError body handler = handler.
Proof. by destruct body as [?|[]]. Qed.

Lemma except_Invalid_through {A} (body handler : outcome A) :
  is_Invalid body = false → except_InvalidManifestError body handler = body.
Proof. by destruct body as [?|[]]. Qed.

Lemma load_parsed (open_json : string → outcome value) (filepath : string)
    (data : value) :
  open_json filepath = Ok data →
  ManifestLoader.load open_json filepath
  = ManifestLoader.try_types ManifestLoader.types data filepath.
Proof. intros Hopen. unfold ManifestLoader.load. by rewrite Hopen. Qed.

(** The first factory that does not raise [InvalidManifestError] decides,
    whatever stands after it in the list. *)
Lemma try_types_decided (ts1 ts2 : list ManifestFactory.class)
    (t : ManifestFactory.class) (data : value) (filepath : string) :
  Forall (λ t', is_Invalid (ManifestFactory.create t' data) = true) ts1 →
  is_Invalid (ManifestFactory.create t data) = false →
  ManifestLoader.try_types (ts1 ++ t :: ts2) data filepath
  = ManifestFactory.create t data.
Proof.
  intros Hpre Ht. induction Hpre as [|t' ts1 Ht' _ IH]; simpl.
  - by apply except_Invalid_through.
  - by rewrite except_Invalid_caught.
Qed.

Lemma try_types_exhausted (ts : list ManifestFactory.class) (data : value)
    (filepath : string) :
  Forall (λ t, is_Invalid (ManifestFactory.create t data) = true) ts →
  ManifestLoader.try_types ts data filepath
  = Raise (UnsupportedManifestError filepath).
Proof.
  induction 1 as [|t ts Ht _ IH]; simpl; [done|].
  by rewrite except_Invalid_caught.
Qed.

(** C1.  Once the file has been parsed, [ManifestLoader.load] goes through
    the bundle-tracker, yam and flat factories in that order: the first
    factory whose [create] does anything but raise [InvalidManifestError]
    gives the result of [load], be it a manifest or another exception such
    as [UnfinishedManifestError], and the factories after it play no part;
    when all three raise [InvalidManifestError], [load] raises
    [UnsupportedManifestError] with the file path. *)
Theorem load_tries_factories_in_order
    (open_json : string → outcome value) (filepath : string) (data : value) :
  open_json filepath = Ok data →
  let tracker := WebpackBundleTrackerFactory.create data in
  let yam := WebpackYamFactory.create data in
  let flat := WebpackManifestFactory.create data in
  let result := ManifestLoader.load open_json filepath in
  ManifestFactory.create <$> ManifestLoader.types
  = [ WebpackBundleTrackerFactory.create;
      WebpackYamFactory.create;
      WebpackManifestFactory.create ]
  ∧ (is_Invalid tracker = false → result = tracker)
  ∧ (is_Invalid tracker = true → is_Invalid yam = false → result = yam)
  ∧ (is_Invalid tracker = true → is_Invalid yam = true →
     is_Invalid flat = false → result = flat)
  ∧ (is_Invalid tracker = true → is_Invalid yam = true →
     is_Invalid flat = true →
     result = Raise (UnsupportedManifestError filepath))
  ∧ (∀ e, tracker = Raise e → is_Invalid tracker = false → result = Raise e).
Proof.
  intros Hopen tracker yam flat result.
  split; [reflexivity|].
  unfold result. rewrite (load_parsed _ _ _ Hopen). unfold ManifestLoader.types.
  repeat split.
  - intros H1. by apply (try_types_decided []).
  - intros H1 H2.
    apply (try_types_decided [WebpackBundleTrackerFactory.cls]); [|done].
    by repeat constructor.
  - intros H1 H2 H3.
    apply (try_types_decided
             [WebpackBundleTrackerFactory.cls; WebpackYamFactory.cls]); [|done].
    by repeat constructor.
  - intros H1 H2 H3. apply try_types_exhausted. by repeat constructor.
  - intros e He H1. rewrite <- He. by apply (try_types_decided []).
Qed.

Lemma load_tries_factories_in_order_witness :
  let data := VDict [("status", VStr "building"); ("files", VDict [])] in
  let open_json := λ _ : string, Ok data in
  ManifestLoader.load open_json "manifest.json"
  = Raise (UnfinishedManifestError data).
Proof.
  intros data open_json.
  destruct (load_tries_factories_in_order open_json "manifest.json" data eq_refl)
    as (_ & _ & Hyam & _).
  rewrite Hyam; reflexivity.
Defined.

(** ** The factories on a JSON object *)

Lemma eq_str_true (v : value) (s : string) : eq_str v s = true ↔ v = VStr s.
Proof.
  destruct v; simpl; try (split; discriminate).
  rewrite String.eqb_eq. split; [by intros -> | by intros [= ->]].
Qed.

Lemma eq_str_false (v : value) (s : string) : eq_str v s = false ↔ v ≠ VStr s.
Proof. rewrite <- eq_str_true. by destruct (eq_str v s). Qed.

Lemma Exists_first {A} (P : A → Prop) `{!∀ x, Decision (P x)} (l : list A) :
  Exists P l →
  ∃ pre x post, l = (pre ++ x :: post)%list ∧ Forall (λ y, ¬ P y) pre ∧ P x.
Proof.
  induction 1 as [x l Hx|x l _ IH].
  - by exists [], x, l.
  - destruct (decide (P x)) as [Hx|Hx].
    + by exists [], x, l.
    + destruct IH as (pre & y & post & -> & Hpre & Hy).
      exists (x :: pre), y, post.
      split; [done|]. split; [by constructor | done].
Qed.

Lemma tracker_not_dict (data : value) :
  is_dict data = false → WebpackBundleTrackerFactory.create data = Raise TypeError.
Proof. by destruct data. Qed.

(** *** webpack-manifest-plugin *)

Lemma flat_create_eq (d : list (string * value)) :
  WebpackManifestFactory.create (VDict d)
  = for_each (filling flat_paths) d ManifestFactory.create_manifest.
Proof.
  unfold WebpackManifestFactory.create. simpl. apply for_each_ext.
  intros [k v] m. unfold filling, flat_paths.
  destruct (isinstance_str v); reflexivity.
Qed.

Lemma flat_create_ok (d : list (string * value)) :
  NoDup (keys d) →
  Forall (λ kv, isinstance_str kv.2 = true) d →
  ∃ m, WebpackManifestFactory.create (VDict d) = Ok m ∧
       ∀ k, Manifest._entries m !! k
            = (λ v, ManifestEntry k (VList [v])) <$> dict_get k d.
Proof.
  intros Hnd Hstr. rewrite flat_create_eq.
  destruct (fill_ok flat_paths d ManifestFactory.create_manifest)
    as (m & Hm & Hlook); [done|done| |].
  { eapply Forall_impl; [exact Hstr|]. intros [k v] Hv. simpl in *.
    exists (VList [v]). unfold flat_paths. by rewrite Hv. }
  exists m. split; [done|]. intros k. rewrite Hlook. unfold produced.
  destruct (dict_get k d) as [v|] eqn:Hk; simpl; [|done].
  apply dict_get_elem_of in Hk. rewrite Forall_forall in Hstr.
  specialize (Hstr _ Hk). simpl in Hstr. unfold flat_paths. by rewrite Hstr.
Qed.

Lemma flat_create_invalid (d : list (string * value)) :
  NoDup (keys d) →
  Exists (λ kv, isinstance_str kv.2 = false) d →
  WebpackManifestFactory.create (VDict d)
  = Raise (InvalidManifestError "webpack-manifest-plugin").
Proof.
  intros Hnd Hex. rewrite flat_create_eq.
  apply Exists_first in Hex as (pre & [k v] & post & -> & Hpre & Hv); [|apply _].
  simpl in Hv.
  apply (fill_raise flat_paths); [done|done| |].
  - eapply Forall_impl; [exact Hpre|]. intros [k' v'] Hv'. simpl in *.
    exists (VList [v']). unfold flat_paths. by destruct (isinstance_str v').
  - unfold flat_paths. by rewrite Hv.
Qed.

(** *** webpack-yam-plugin *)

Lemma yam_create_invalid (d : list (string * value)) :
  "status" ∉ keys d ∨ "files" ∉ keys d →
  WebpackYamFactory.create (VDict d)
  = Raise (InvalidManifestError "webpack-yam-plugin").
Proof.
  unfold WebpackYamFactory.create. simpl.
  intros [H|H]; apply dict_get_None in H.
  - by rewrite H.
  - rewrite H. by destruct (dict_get "status" d).
Qed.

Lemma yam_create_unfinished (d : list (string * value)) (status files : value) :
  dict_get "status" d = Some status →
  dict_get "files" d = Some files →
  files = VNone ∨ status ≠ VStr "built" →
  WebpackYamFactory.create (VDict d) = Raise (UnfinishedManifestError (VDict d)).
Proof.
  unfold WebpackYamFactory.create. simpl. intros -> -> Hcond. simpl.
  destruct Hcond as [->|Hne]; [done|].
  apply eq_str_false in Hne. rewrite Hne. by rewrite orb_true_r.
Qed.

Lemma yam_create_ok (d files : list (string * value)) :
  dict_get "status" d = Some (VStr "built") →
  dict_get "files" d = Some (VDict files) →
  NoDup (keys files) →
  ∃ m, WebpackYamFactory.create (VDict d) = Ok m ∧
       ∀ k, Manifest._entries m !! k = ManifestEntry k <$> dict_get k files.
Proof.
  unfold WebpackYamFactory.create. simpl. intros -> -> Hnd. simpl.
  rewrite (for_each_ext _ (filling (λ _ paths, Ok paths))) by (by intros [??] ?).
  destruct (fill_ok (λ _ paths, Ok paths) files ManifestFactory.create_manifest)
    as (m & Hm & Hlook); [done|done| |].
  { apply Forall_forall. intros [k v] _. by exists v. }
  exists m. split; [done|]. intros k. rewrite Hlook. unfold produced.
  by destruct (dict_get k files).
Qed.

(** *** webpack-bundle-tracker *)

Lemma tracker_create_eq (d : list (string * value)) (chunks : value) :
  dict_get "status" d = Some (VStr "done") →
  dict_get "chunks" d = Some chunks →
  WebpackBundleTrackerFactory.create (VDict d)
  = its ← items chunks;
    for_each (filling tracker_paths) its ManifestFactory.create_manifest.
Proof.
  intros Hstatus Hchunks. unfold WebpackBundleTrackerFactory.create. simpl.
  rewrite Hstatus. simpl.
  rewrite bool_decide_eq_true_2 by (apply dict_get_is_Some; by rewrite Hchunks).
  simpl. rewrite Hchunks. simpl.
  destruct (items chunks) as [its|e]; simpl; [|done].
  apply for_each_ext. intros [k paths] m. unfold filling, tracker_paths.
  destruct (iter paths) as [xs|e]; simpl; [|done].
  by destruct (comprehension _ xs).
Qed.

Lemma getitem_publicPath (x y : value) :
  publicPath x = Some y → getitem x "publicPath" = Ok y.
Proof. destruct x; simpl; try done. by intros ->. Qed.

Lemma tracker_paths_ok (k : string) (paths : value) (ps : list value) :
  public_paths paths = Some ps → tracker_paths k paths = Ok (VList ps).
Proof.
  destruct paths as [| | | | |xs|]; simpl; try done.
  intros Hps%mapM_Some_1. unfold tracker_paths. simpl.
  rewrite (comprehension_Forall2 _ xs ps); [done|].
  eapply Forall2_impl; [exact Hps|]. intros x y. apply getitem_publicPath.
Qed.

Lemma tracker_paths_KeyError (k : string) (paths : value) :
  well_formed_chunk paths = true →
  public_paths paths = None →
  tracker_paths k paths = Raise (KeyError "publicPath").
Proof.
  destruct paths as [| | | | |xs|]; simpl; try done.
  unfold tracker_paths. simpl. induction xs as [|x xs IH]; simpl; [done|].
  intros [Hx Hxs]%andb_true_iff. destruct x as [| | | | | |dx]; try done.
  unfold getitem. simpl.
  destruct (dict_get "publicPath" dx) as [y|]; simpl; [|done].
  destruct (mapM publicPath xs) as [ys|] eqn:Hys; simpl; [done|].
  intros _. specialize (IH Hxs eq_refl).
  by destruct (comprehension _ xs) as [?|?]; simplify_eq/=.
Qed.

Lemma tracker_create_invalid (d : list (string * value)) :
  "status" ∉ keys d ∨ "chunks" ∉ keys d →
  WebpackBundleTrackerFactory.create (VDict d)
  = Raise (InvalidManifestError "webpack-bundle-tracker").
Proof.
  unfold WebpackBundleTrackerFactory.create. simpl. intros [H|H].
  - apply dict_get_None in H. by rewrite H.
  - destruct (dict_get "status" d); simpl; [|done].
    by rewrite bool_decide_eq_false_2.
Qed.

Lemma tracker_create_unfinished (d : list (string * value)) (status : value) :
  dict_get "status" d = Some status →
  "chunks" ∈ keys d →
  status ≠ VStr "done" →
  WebpackBundleTrackerFactory.create (VDict d)
  = Raise (UnfinishedManifestError (VDict d)).
Proof.
  unfold WebpackBundleTrackerFactory.create. simpl.
  intros -> Hchunks Hne%eq_str_false. simpl.
  rewrite bool_decide_eq_true_2 by done. simpl. by rewrite Hne.
Qed.

Lemma tracker_create_ok (d chunks : list (string * value)) :
  dict_get "status" d = Some (VStr "done") →
  dict_get "chunks" d = Some (VDict chunks) →
  NoDup (keys chunks) →
  Forall (λ kv, is_Some (public_paths kv.2)) chunks →
  ∃ m, WebpackBundleTrackerFactory.create (VDict d) = Ok m ∧
       ∀ name, Manifest._entries m !! name
               = paths ← dict_get name chunks;
                 ps ← public_paths paths;
                 Some (ManifestEntry name (VList ps)).
Proof.
  intros Hstatus Hchunks Hnd Hall.
  rewrite (tracker_create_eq d (VDict chunks)) by done. simpl.
  destruct (fill_ok tracker_paths chunks ManifestFactory.create_manifest)
    as (m & Hm & Hlook); [done|done| |].
  { eapply Forall_impl; [exact Hall|]. intros [k paths] [ps Hps]. simpl in *.
    exists (VList ps). by apply tracker_paths_ok. }
  exists m. split; [done|]. intros name. rewrite Hlook. unfold produced.
  destruct (dict_get name chunks) as [paths|] eqn:Hname; simpl; [|done].
  apply dict_get_elem_of in Hname. rewrite Forall_forall in Hall.
  destruct (Hall _ Hname) as [ps Hps]. simpl in Hps. rewrite Hps. simpl.
  by rewrite (tracker_paths_ok _ _ ps).
Qed.

Lemma tracker_create_KeyError (d chunks : list (string * value)) :
  dict_get "status" d = Some (VStr "done") →
  dict_get "chunks" d = Some (VDict chunks) →
  NoDup (keys chunks) →
  Forall (λ kv, well_formed_chunk kv.2 = true) chunks →
  Exists (λ kv, public_paths kv.2 = None) chunks →
  WebpackBundleTrackerFactory.create (VDict d) = Raise (KeyError "publicPath").
Proof.
  intros Hstatus Hchunks Hnd Hwf Hex.
  rewrite (tracker_create_eq d (VDict chunks)) by done. simpl.
  apply Exists_first in Hex as (pre & [k paths] & post & -> & Hpre & Hk);
    [|apply _].
  simpl in Hk. apply fill_raise; [done|done| |].
  - eapply Forall_impl; [exact Hpre|]. intros [k' paths'] Hsome. simpl in *.
    destruct (public_paths paths') as [ps|] eqn:Hps; [|done].
    exists (VList ps). by apply tracker_paths_ok.
  - apply tracker_paths_KeyError; [|done].
    rewrite Forall_app, Forall_cons in Hwf. by destruct Hwf as (_ & ? & _).
Qed.

(** * The claims *)

(** C2, as stated, fails on a JSON array: the bundle-tracker factory, tried
    first, subscripts the document with ['status'], the [TypeError] is not
    an [InvalidManifestError], and the loader lets it through. *)
Lemma load_array_raises_TypeError :
  ManifestLoader.load (λ _, Ok (VList [])) "manifest.json" = Raise TypeError
  ∧ ManifestLoader.load (λ _, Ok (VList [])) "manifest.json"
    ≠ Raise (UnsupportedManifestError "manifest.json").
Proof. split; [reflexivity | discriminate]. Qed.

(** C2, amended.  A parsed document that is a JSON object with none of the
    three shapes -- ['status'] is missing, or both ['chunks'] and ['files']
    are, and some value is not a string -- makes [ManifestLoader.load]
    raise [UnsupportedManifestError] with the file path.  A parsed document
    that is not an object (array, string, number, boolean, null) makes it
    raise the [TypeError] of the first factory instead. *)
Theorem load_unrecognized_shape
    (open_json : string → outcome value) (filepath : string) (data : value) :
  open_json filepath = Ok data →
  (∀ d, data = VDict d →
        NoDup (keys d) →
        "status" ∉ keys d ∨ (("chunks" ∉ keys d) ∧ ("files" ∉ keys d)) →
        Exists (λ kv, isinstance_str kv.2 = false) d →
        ManifestLoader.load open_json filepath
        = Raise (UnsupportedManifestError filepath))
  ∧ (is_dict data = false →
     ManifestLoader.load open_json filepath = Raise TypeError).
Proof.
  intros Hopen. rewrite (load_parsed _ _ _ Hopen). split.
  - intros d -> Hnd Hshape Hvalue. apply try_types_exhausted.
    repeat constructor; simpl.
    + rewrite tracker_create_invalid; [done|]. tauto.
    + rewrite yam_create_invalid; [done|]. tauto.
    + by rewrite flat_create_invalid.
  - intros Hnot. simpl. by rewrite tracker_not_dict.
Qed.

Lemma load_unrecognized_shape_witness :
  ManifestLoader.load (λ _, Ok (VDict [("app", VStr "app.js"); ("size", VInt 3)]))
    "manifest.json"
  = Raise (UnsupportedManifestError "manifest.json")
  ∧ ManifestLoader.load (λ _, Ok (VStr "app.js")) "manifest.json" = Raise TypeError.
Proof.
  split.
  - eapply (load_unrecognized_shape _ _ _ eq_refl); [reflexivity| | |].
    + compute_done.
    + left. compute_done.
    + apply Exists_cons_tl, Exists_cons_hd. reflexivity.
  - by apply (load_unrecognized_shape _ _ _ eq_refl).
Defined.

(** C3.  On a JSON object, [WebpackBundleTrackerFactory.create] raises
    [InvalidManifestError] when ['status'] or ['chunks'] is missing, and
    [UnfinishedManifestError] when both are there and the status is not
    ['done'].  With status ['done'] and chunks that map each name to a list
    of descriptors having a ['publicPath'], it returns a manifest with one
    entry per chunk name, whose paths are these fields in order.  The two
    examples of the specification come out as it says. *)
Theorem tracker_create_spec (d : list (string * value)) :
  ("status" ∉ keys d ∨ "chunks" ∉ keys d →
   WebpackBundleTrackerFactory.create (VDict d)
   = Raise (InvalidManifestError "webpack-bundle-tracker"))
  ∧ (∀ status, dict_get "status" d = Some status →
               "chunks" ∈ keys d →
               status ≠ VStr "done" →
               WebpackBundleTrackerFactory.create (VDict d)
               = Raise (UnfinishedManifestError (VDict d)))
  ∧ (∀ chunks, dict_get "status" d = Some (VStr "done") →
               dict_get "chunks" d = Some (VDict chunks) →
               NoDup (keys chunks) →
               Forall (λ kv, is_Some (public_paths kv.2)) chunks →
               ∃ m, WebpackBundleTrackerFactory.create (VDict d) = Ok m ∧
                    ∀ name, Manifest.__getitem__ m name
                            = match dict_get name chunks ≫= public_paths with
                              | Some ps => Ok (ManifestEntry name (VList ps))
                              | None => Raise (KeyError name)
                              end)
  ∧ WebpackBundleTrackerFactory.create
      (VDict [("status", VStr "initial"); ("chunks", VDict [])])
    = Raise (UnfinishedManifestError
               (VDict [("status", VStr "initial"); ("chunks", VDict [])]))
  ∧ WebpackBundleTrackerFactory.create
      (VDict [("status", VStr "done");
              ("chunks",
               VDict [("app", VList [VDict [("publicPath", VStr "app.js")]])])])
    = Ok (Manifest {[ "app" := ManifestEntry "app" (VList [VStr "app.js"]) ]}).
Proof.
  split; [apply tracker_create_invalid|].
  split; [apply tracker_create_unfinished|].
  split; [|split; reflexivity].
  intros chunks Hstatus Hchunks Hnd Hall.
  destruct (tracker_create_ok d chunks) as (m & Hm & Hlook); [done..|].
  exists m. split; [done|]. intros name.
  unfold Manifest.__getitem__. rewrite Hlook.
  destruct (dict_get name chunks) as [paths|]; simpl; [|done].
  by destruct (public_paths paths).
Qed.

Lemma tracker_create_spec_witness :
  WebpackBundleTrackerFactory.create (VDict [("chunks", VDict [])])
  = Raise (InvalidManifestError "webpack-bundle-tracker")
  ∧ WebpackBundleTrackerFactory.create
      (VDict [("status", VStr "compiling"); ("chunks", VDict [])])
    = Raise (UnfinishedManifestError
               (VDict [("status", VStr "compiling"); ("chunks", VDict [])]))
  ∧ ∃ m, WebpackBundleTrackerFactory.create
           (VDict [("status", VStr "done");
                   ("chunks",
                    VDict [("app", VList [VDict [("name", VStr "app.js");
                                                 ("publicPath", VStr "/static/app.js")];
                                          VDict [("publicPath", VStr "/static/app.css")]]);
                           ("vendor", VList [])])])
         = Ok m
         ∧ Manifest.__getitem__ m "app"
           = Ok (ManifestEntry "app"
                   (VList [VStr "/static/app.js"; VStr "/static/app.css"]))
         ∧ Manifest.__getitem__ m "vendor" = Ok (ManifestEntry "vendor" (VList []))
         ∧ Manifest.__getitem__ m "main" = Raise (KeyError "main").
Proof.
  split; [|split].
  - apply (tracker_create_spec [("chunks", VDict [])]). left. compute_done.
  - eapply (tracker_create_spec [("status", VStr "compiling"); ("chunks", VDict [])]);
      [reflexivity | compute_done | discriminate].
  - destruct (tracker_create_spec
                [("status", VStr "done");
                 ("chunks",
                  VDict [("app", VList [VDict [("name", VStr "app.js");
                                               ("publicPath", VStr "/static/app.js")];
                                        VDict [("publicPath", VStr "/static/app.css")]]);
                         ("vendor", VList [])])])
      as (_ & _ & Hdone & _).
    edestruct Hdone as (m & Hm & Hlook); [reflexivity | reflexivity | compute_done | |].
    + repeat constructor; by eexists.
    + exists m. split; [exact Hm|]. by rewrite !Hlook.
Defined.

(** C4, as stated, fails on an empty ['files'] object of a finished build:
    the factory tests [files is None] and nothing else, so it returns a
    manifest, an empty one, where the claim has it raise
    [UnfinishedManifestError]. *)
Lemma yam_create_empty_files :
  WebpackYamFactory.create (VDict [("status", VStr "built"); ("files", VDict [])])
  = Ok (Manifest ∅)
  ∧ WebpackYamFactory.create (VDict [("status", VStr "built"); ("files", VDict [])])
    ≠ Raise (UnfinishedManifestError
               (VDict [("status", VStr "built"); ("files", VDict [])])).
Proof. split; [reflexivity | discriminate]. Qed.

(** C4, amended.  On a JSON object, [WebpackYamFactory.create] raises
    [InvalidManifestError] when ['status'] or ['files'] is missing, and
    [UnfinishedManifestError] when both are there and ['files'] is null or
    the status is not ['built'].  With status ['built'] and ['files'] an
    object, empty or not, it returns a manifest with one entry per key of
    ['files'], whose paths are the value under that key.  The two examples
    of the specification raise [UnfinishedManifestError]. *)
Theorem yam_create_spec (d : list (string * value)) :
  ("status" ∉ keys d ∨ "files" ∉ keys d →
   WebpackYamFactory.create (VDict d)
   = Raise (InvalidManifestError "webpack-yam-plugin"))
  ∧ (∀ status files, dict_get "status" d = Some status →
                     dict_get "files" d = Some files →
                     files = VNone ∨ status ≠ VStr "built" →
                     WebpackYamFactory.create (VDict d)
                     = Raise (UnfinishedManifestError (VDict d)))
  ∧ (∀ files, dict_get "status" d = Some (VStr "built") →
              dict_get "files" d = Some (VDict files) →
              NoDup (keys files) →
              ∃ m, WebpackYamFactory.create (VDict d) = Ok m ∧
                   ∀ name, Manifest.__getitem__ m name
                           = match dict_get name files with
                             | Some paths => Ok (ManifestEntry name paths)
                             | None => Raise (KeyError name)
                             end)
  ∧ WebpackYamFactory.create (VDict [("status", VStr "built"); ("files", VNone)])
    = Raise (UnfinishedManifestError
               (VDict [("status", VStr "built"); ("files", VNone)]))
  ∧ WebpackYamFactory.create
      (VDict [("status", VStr "building");
              ("files", VDict [("app", VList [VStr "app.js"])])])
    = Raise (UnfinishedManifestError
               (VDict [("status", VStr "building");
                       ("files", VDict [("app", VList [VStr "app.js"])])])).
Proof.
  split; [apply yam_create_invalid|].
  split; [apply yam_create_unfinished|].
  split; [|split; reflexivity].
  intros files Hstatus Hfiles Hnd.
  destruct (yam_create_ok d files) as (m & Hm & Hlook); [done..|].
  exists m. split; [done|]. intros name.
  unfold Manifest.__getitem__. rewrite Hlook.
  by destruct (dict_get name files).
Qed.

Lemma yam_create_spec_witness :
  WebpackYamFactory.create (VDict [("status", VStr "built")])
  = Raise (InvalidManifestError "webpack-yam-plugin")
  ∧ WebpackYamFactory.create (VDict [("status", VInt 1); ("files", VDict [])])
    = Raise (UnfinishedManifestError
               (VDict [("status", VInt 1); ("files", VDict [])]))
  ∧ ∃ m, WebpackYamFactory.create
           (VDict [("status", VStr "built");
                   ("files", VDict [("app", VList [VStr "app.js"; VStr "app.css"])])])
         = Ok m
         ∧ Manifest.__getitem__ m "app"
           = Ok (ManifestEntry "app" (VList [VStr "app.js"; VStr "app.css"]))
         ∧ Manifest.__getitem__ m "vendor" = Raise (KeyError "vendor").
Proof.
  split; [|split].
  - apply (yam_create_spec [("status", VStr "built")]). right. compute_done.
  - eapply (yam_create_spec [("status", VInt 1); ("files", VDict [])]);
      [reflexivity | reflexivity | right; discriminate].
  - destruct (yam_create_spec
                [("status", VStr "built");
                 ("files", VDict [("app", VList [VStr "app.js"; VStr "app.css"])])])
      as (_ & _ & Hbuilt & _).
    edestruct Hbuilt as (m & Hm & Hlook); [reflexivity | reflexivity | compute_done |].
    exists m. split; [exact Hm|]. by rewrite !Hlook.
Defined.

(** C5.  On a flat JSON object, [WebpackManifestFactory.create] raises
    [InvalidManifestError] as soon as some value is not a string, and
    otherwise returns a manifest with one entry per key, whose paths are
    the one-element list of the string under that key.  The example of the
    specification, with the number 123 as a value, raises
    [InvalidManifestError]. *)
Theorem flat_create_spec (d : list (string * value)) :
  NoDup (keys d) →
  (Exists (λ kv, isinstance_str kv.2 = false) d →
   WebpackManifestFactory.create (VDict d)
   = Raise (InvalidManifestError "webpack-manifest-plugin"))
  ∧ (Forall (λ kv, isinstance_str kv.2 = true) d →
     ∃ m, WebpackManifestFactory.create (VDict d) = Ok m ∧
          ∀ name, Manifest.__getitem__ m name
                  = match dict_get name d with
                    | Some path => Ok (ManifestEntry name (VList [path]))
                    | None => Raise (KeyError name)
                    end)
  ∧ WebpackManifestFactory.create
      (VDict [("app", VStr "app.js"); ("app.css", VInt 123)])
    = Raise (InvalidManifestError "webpack-manifest-plugin").
Proof.
  intros Hnd. split; [by apply flat_create_invalid|]. split; [|reflexivity].
  intros Hstr. destruct (flat_create_ok d) as (m & Hm & Hlook); [done..|].
  exists m. split; [done|]. intros name.
  unfold Manifest.__getitem__. rewrite Hlook.
  by destruct (dict_get name d).
Qed.

Lemma flat_create_spec_witness :
  WebpackManifestFactory.create
    (VDict [("app", VStr "app.js"); ("vendor", VNone); ("app.css", VStr "app.css")])
  = Raise (InvalidManifestError "webpack-manifest-plugin")
  ∧ ∃ m, WebpackManifestFactory.create
           (VDict [("app", VStr "app.js"); ("app.css", VStr "app.3f2a.css")])
         = Ok m
         ∧ Manifest.__getitem__ m "app"
           = Ok (ManifestEntry "app" (VList [VStr "app.js"]))
         ∧ Manifest.__getitem__ m "app.css"
           = Ok (ManifestEntry "app.css" (VList [VStr "app.3f2a.css"]))
         ∧ Manifest.__getitem__ m "vendor" = Raise (KeyError "vendor").
Proof.
  split.
  - destruct (flat_create_spec
                [("app", VStr "app.js"); ("vendor", VNone);
                 ("app.css", VStr "app.css")])
      as (Hinvalid & _); [compute_done|].
    apply Hinvalid. apply Exists_cons_tl, Exists_cons_hd. reflexivity.
  - destruct (flat_create_spec
                [("app", VStr "app.js"); ("app.css", VStr "app.3f2a.css")])
      as (_ & Hok & _); [compute_done|].
    destruct Hok as (m & Hm & Hlook); [by repeat constructor|].
    exists m. split; [exact Hm|]. by rewrite !Hlook.
Defined.

(** ** Rendering *)

Lemma templates_get_None (ext : string) :
  ext ≠ ".js" → ext ≠ ".css" → dict_get ext ManifestEntry.templates = None.
Proof.
  intros Hjs Hcss. unfold ManifestEntry.templates. cbn [dict_get].
  rewrite (proj2 (String.eqb_neq ".js" ext)) by done.
  by rewrite (proj2 (String.eqb_neq ".css" ext)).
Qed.

Lemma render_path_mapped (p : string) (out : list string) :
  mapped p → ManifestEntry.render_path (VStr p) out = Ok (out ++ [tag p])%list.
Proof.
  unfold mapped, tag, extension, ManifestEntry.render_path.
  destruct (splitext p) as [dummy_name ext]. simpl.
  by intros [-> | ->].
Qed.

Lemma render_path_unmapped (p : string) (out : list string) :
  ¬ mapped p →
  ManifestEntry.render_path (VStr p) out = Raise (UnsupportedExtensionError p).
Proof.
  unfold mapped, extension, ManifestEntry.render_path.
  destruct (splitext p) as [dummy_name ext]. cbn [snd]. intros Hnot.
  rewrite templates_get_None; [done| |]; intros Heq; apply Hnot; tauto.
Qed.

Lemma render_loop_mapped (paths : list string) (out : list string) :
  Forall mapped paths →
  for_each ManifestEntry.render_path (VStr <$> paths) out
  = Ok (out ++ (tag <$> paths))%list.
Proof.
  intros Hall. revert out. induction Hall as [|p paths Hp _ IH]; intros out.
  - simpl. by rewrite app_nil_r.
  - rewrite fmap_cons. cbn [for_each]. rewrite render_path_mapped by done.
    rewrite bind_Ok, IH. by rewrite <- app_assoc.
Qed.

(** C6.  For an entry whose paths are a list of strings: when the
    extension of every path, in lower case, is [.js] or [.css], [render]
    returns the tags of the paths in order with nothing between them, a
    script tag for [.js] and a stylesheet link for [.css], each holding the
    path as it is; otherwise it raises [UnsupportedExtensionError] with the
    first path whose extension is neither, whatever comes after.  The two
    examples of the specification come out as it says. *)
Theorem render_spec (name : string) (paths : list string) :
  let entry := ManifestEntry name (VList (VStr <$> paths)) in
  (Forall mapped paths → ManifestEntry.render entry = Ok (join (tag <$> paths)))
  ∧ (∀ pre p post, paths = (pre ++ p :: post)%list →
                   Forall mapped pre →
                   extension p ≠ ".js" → extension p ≠ ".css" →
                   ManifestEntry.render entry = Raise (UnsupportedExtensionError p))
  ∧ (∀ p, extension p = ".js" →
          tag p = "<script src=" ++ dquote ++ p ++ dquote ++ "></script>")
  ∧ (∀ p, extension p = ".css" →
          tag p = "<link rel=" ++ dquote ++ "stylesheet" ++ dquote ++ " href="
                    ++ dquote ++ p ++ dquote ++ "></link>")
  ∧ ManifestEntry.render (ManifestEntry "app" (VList [VStr "app.js"; VStr "app.css"]))
    = Ok ("<script src=" ++ dquote ++ "app.js" ++ dquote ++ "></script>"
          ++ "<link rel=" ++ dquote ++ "stylesheet" ++ dquote ++ " href="
          ++ dquote ++ "app.css" ++ dquote ++ "></link>")
  ∧ ManifestEntry.render (ManifestEntry "x" (VList [VStr "x.png"]))
    = Raise (UnsupportedExtensionError "x.png").
Proof.
  intros entry.
  assert (Hrender : ManifestEntry.render entry
                    = for_each ManifestEntry.render_path (VStr <$> paths) []
                      ≫= λ out, Ok (join out)) by reflexivity.
  rewrite Hrender. clear Hrender entry.
  split; [|split; [|split; [|split; [|split; reflexivity]]]].
  - intros Hall. by rewrite render_loop_mapped.
  - intros pre p post -> Hpre Hjs Hcss.
    rewrite fmap_app, for_each_app, render_loop_mapped by done.
    rewrite bind_Ok, fmap_cons. cbn [for_each].
    rewrite render_path_unmapped; [done|]. by intros [?|?].
  - intros p Hp. unfold tag. by rewrite Hp.
  - intros p Hp. unfold tag. by rewrite Hp.
Qed.

Lemma render_spec_witness :
  ManifestEntry.render
    (ManifestEntry "app" (VList (VStr <$> ["/static/app.JS"; "css/app.min.css"])))
  = Ok (join (tag <$> ["/static/app.JS"; "css/app.min.css"]))
  ∧ ManifestEntry.render
      (ManifestEntry "app"
         (VList (VStr <$> ["app.js"; "logo.png"; "README"; "app.css"])))
    = Raise (UnsupportedExtensionError "logo.png")
  ∧ tag "/static/app.JS"
    = "<script src=" ++ dquote ++ "/static/app.JS" ++ dquote ++ "></script>"
  ∧ tag "css/app.min.css"
    = "<link rel=" ++ dquote ++ "stylesheet" ++ dquote ++ " href="
        ++ dquote ++ "css/app.min.css" ++ dquote ++ "></link>".
Proof.
  split; [|split; [|split]].
  - apply (render_spec "app" ["/static/app.JS"; "css/app.min.css"]).
    constructor; [by left|]. constructor; [by right|]. constructor.
  - apply (render_spec "app" ["app.js"; "logo.png"; "README"; "app.css"])
      with (pre := ["app.js"]) (post := ["README"; "app.css"]);
      [reflexivity | | discriminate | discriminate].
    constructor; [by left|]. constructor.
  - by apply (render_spec "app" []).
  - by apply (render_spec "app" []).
Defined.

(** ** The manifest *)

(** C7.  [Manifest.add] with an entry whose name is already present raises
    [KeyError], which is none of the manifest errors, and leaves the
    manifest as it was.  After a successful [add] of [first], an [add] of
    any entry with the same name raises and the entry stored under the name
    is still [first]. *)
Theorem add_duplicate_name (self : Manifest.t) (entry : ManifestEntry.t) :
  let collision :=
    KeyError ("Entry " ++ ManifestEntry.name entry ++ " already present") in
  is_ManifestError collision = false
  ∧ (is_Some (Manifest._entries self !! ManifestEntry.name entry) →
     Manifest.add self entry = (Raise collision, self))
  ∧ (∀ first, ManifestEntry.name first = ManifestEntry.name entry →
              (Manifest.add self first).1 = Ok () →
              let stored := (Manifest.add self first).2 in
              Manifest.add stored entry = (Raise collision, stored)
              ∧ Manifest.__getitem__ stored (ManifestEntry.name entry) = Ok first).
Proof.
  intros collision. split; [reflexivity|].
  assert (Hdup : ∀ m, is_Some (Manifest._entries m !! ManifestEntry.name entry) →
                      Manifest.add m entry = (Raise collision, m)).
  { intros m Hsome. unfold Manifest.add. by rewrite bool_decide_eq_true_2. }
  split; [apply Hdup|].
  intros first Hname. unfold Manifest.add at 1 2.
  destruct (bool_decide _); simpl; [done|]. intros _.
  assert (Hstored : <[ManifestEntry.name first:=first]> (Manifest._entries self)
                    !! ManifestEntry.name entry = Some first).
  { rewrite <- Hname. apply lookup_insert_eq. }
  split.
  - apply Hdup. simpl. by rewrite Hstored.
  - unfold Manifest.__getitem__. simpl. by rewrite Hstored.
Qed.

Lemma add_duplicate_name_witness :
  let first := ManifestEntry "app" (VList [VStr "app.js"]) in
  let second := ManifestEntry "app" (VList [VStr "other.js"]) in
  let stored := Manifest {[ "app" := first ]} in
  Manifest.add Manifest.__init__ first = (Ok (), stored)
  ∧ Manifest.add stored second
    = (Raise (KeyError "Entry app already present"), stored)
  ∧ Manifest.__getitem__ stored "app" = Ok first.
Proof.
  intros first second stored. split; [reflexivity|].
  destruct (add_duplicate_name Manifest.__init__ second) as (_ & _ & Htwice).
  destruct (Htwice first eq_refl eq_refl) as [Hraise Hkept].
  destruct (add_duplicate_name stored second) as (_ & Hdup & _).
  split; [apply Hdup; by exists first | exact Hkept].
Defined.

(** C8, as stated, fails on an entry named like a method: [manifest.add]
    is the method [add] whether or not an entry of that name is stored,
    because [__getattr__] is asked only for the names the regular lookup
    does not find.  The subscript does return the entry. *)
Lemma getattr_add_is_the_method :
  let entry := ManifestEntry "add" (VList [VStr "add.js"]) in
  let manifest := Manifest {[ "add" := entry ]} in
  Manifest.add Manifest.__init__ entry = (Ok (), manifest)
  ∧ Manifest.__getitem__ manifest "add" = Ok entry
  ∧ Manifest.getattr cpython_object_names manifest "add"
    = Ok (Manifest.ClassAttribute "add")
  ∧ Manifest.getattr cpython_object_names manifest "add" ≠ Ok (Manifest.Entry entry)
  ∧ Manifest.getattr cpython_object_names Manifest.__init__ "add"
    = Ok (Manifest.ClassAttribute "add").
Proof. repeat split; discriminate. Qed.

(** C8, amended.  For a name under which an entry is stored, the subscript
    and [__getattr__] return the entry, and so does the attribute access
    [manifest.NAME] when NAME is not a regular attribute of the object
    ([_entries], a method of the class, a name every object has).  For a
    name with no entry, the subscript raises [KeyError] and [__getattr__]
    raises [AttributeError], and so does the attribute access under the
    same condition.  The attribute access of a regular name never gives an
    entry. *)
Theorem lookup_spec (object_names : list string) (self : Manifest.t) (name : string) :
  let missing := AttributeError ("Attribute " ++ name ++ " does not exists.") in
  (∀ entry, Manifest._entries self !! name = Some entry →
            Manifest.__getitem__ self name = Ok entry
            ∧ Manifest.__getattr__ self name = Ok entry
            ∧ (Manifest.regular object_names name = false →
               Manifest.getattr object_names self name = Ok (Manifest.Entry entry)))
  ∧ (Manifest._entries self !! name = None →
     Manifest.__getitem__ self name = Raise (KeyError name)
     ∧ Manifest.__getattr__ self name = Raise missing
     ∧ (Manifest.regular object_names name = false →
        Manifest.getattr object_names self name = Raise missing))
  ∧ (Manifest.regular object_names name = true →
     ∀ entry, Manifest.getattr object_names self name ≠ Ok (Manifest.Entry entry)).
Proof.
  intros missing.
  unfold Manifest.getattr, Manifest.regular, Manifest.__getattr__,
    Manifest.__getitem__.
  split; [|split].
  - intros entry ->. split; [done|]. split; [done|].
    intros [[-> ->]%orb_false_iff ->]%orb_false_iff. done.
  - intros ->. split; [done|]. split; [done|].
    intros [[-> ->]%orb_false_iff ->]%orb_false_iff. done.
  - intros Hregular entry.
    destruct (String.eqb name "_entries"); [done|].
    destruct (bool_decide (name ∈ Manifest.class_body)); [done|].
    destruct (bool_decide (name ∈ object_names)); [done|]. done.
Qed.

Lemma lookup_spec_witness :
  let entry := ManifestEntry "app" (VList [VStr "app.js"]) in
  let manifest := Manifest {[ "app" := entry ]} in
  Manifest.__getitem__ manifest "app" = Ok entry
  ∧ Manifest.getattr cpython_object_names manifest "app" = Ok (Manifest.Entry entry)
  ∧ Manifest.__getitem__ manifest "vendor" = Raise (KeyError "vendor")
  ∧ Manifest.getattr cpython_object_names manifest "vendor"
    = Raise (AttributeError "Attribute vendor does not exists.")
  ∧ Manifest.getattr cpython_object_names manifest "_entries"
    ≠ Ok (Manifest.Entry entry).
Proof.
  intros entry manifest.
  destruct (lookup_spec cpython_object_names manifest "app") as (Hstored & _ & _).
  destruct (Hstored entry eq_refl) as (Hitem & _ & Hattr).
  destruct (lookup_spec cpython_object_names manifest "vendor") as (_ & Hmissing & _).
  destruct (Hmissing eq_refl) as (Hitem' & _ & Hattr').
  destruct (lookup_spec cpython_object_names manifest "_entries") as (_ & _ & Hregular).
  split; [exact Hitem|]. split; [apply Hattr; reflexivity|].
  split; [exact Hitem'|]. split; [apply Hattr'; reflexivity|].
  apply Hregular. reflexivity.
Defined.

(** ** The loader on particular documents *)

(** C9.  When the file holds the empty JSON object, the bundle-tracker and
    yam factories raise [InvalidManifestError], the flat factory returns a
    manifest with no entry, and that is what [ManifestLoader.load]
    returns. *)
Theorem load_empty_object (open_json : string → outcome value) (filepath : string) :
  open_json filepath = Ok (VDict []) →
  WebpackBundleTrackerFactory.create (VDict [])
  = Raise (InvalidManifestError "webpack-bundle-tracker")
  ∧ WebpackYamFactory.create (VDict [])
    = Raise (InvalidManifestError "webpack-yam-plugin")
  ∧ WebpackManifestFactory.create (VDict []) = Ok (Manifest ∅)
  ∧ ManifestLoader.load open_json filepath = Ok (Manifest ∅)
  ∧ ∀ name, Manifest.__getitem__ (Manifest ∅) name = Raise (KeyError name).
Proof.
  intros Hopen. rewrite (load_parsed _ _ _ Hopen).
  repeat (split; [reflexivity|]). intros name. reflexivity.
Qed.

Lemma load_empty_object_witness :
  ManifestLoader.load (λ _, Ok (VDict [])) "manifest.json" = Ok (Manifest ∅).
Proof.
  by destruct (load_empty_object (λ _, Ok (VDict [])) "manifest.json" eq_refl)
    as (_ & _ & _ & Hload & _).
Defined.

(** C10.  With status ['done'] and chunks that map each name to a list of
    descriptor objects, if some descriptor has no ['publicPath'] then
    [WebpackBundleTrackerFactory.create] raises [KeyError], which is none
    of the manifest errors; [ManifestLoader.load] raises the same
    [KeyError], whatever the factories after the first would do. *)
Theorem tracker_missing_publicPath (d chunks : list (string * value)) :
  dict_get "status" d = Some (VStr "done") →
  dict_get "chunks" d = Some (VDict chunks) →
  NoDup (keys chunks) →
  Forall (λ kv, well_formed_chunk kv.2 = true) chunks →
  Exists (λ kv, lacks_publicPath kv.2) chunks →
  WebpackBundleTrackerFactory.create (VDict d) = Raise (KeyError "publicPath")
  ∧ is_ManifestError (KeyError "publicPath") = false
  ∧ ∀ open_json filepath ts,
      open_json filepath = Ok (VDict d) →
      ManifestLoader.load open_json filepath = Raise (KeyError "publicPath")
      ∧ ManifestLoader.try_types (WebpackBundleTrackerFactory.cls :: ts)
          (VDict d) filepath
        = Raise (KeyError "publicPath").
Proof.
  intros Hstatus Hchunks Hnd Hwf Hlacks.
  assert (Hcreate : WebpackBundleTrackerFactory.create (VDict d)
                    = Raise (KeyError "publicPath")).
  { apply (tracker_create_KeyError d chunks); [done..|].
    eapply Exists_impl; [exact Hlacks|].
    intros [k paths] (xs & -> & Hxs). simpl. by apply mapM_None_2. }
  split; [done|]. split; [done|].
  intros open_json filepath ts Hopen. rewrite (load_parsed _ _ _ Hopen).
  assert (Hfirst : ∀ ts', ManifestLoader.try_types
                            (WebpackBundleTrackerFactory.cls :: ts') (VDict d) filepath
                          = Raise (KeyError "publicPath")).
  { intros ts'. rewrite <- Hcreate.
    apply (try_types_decided [] ts' WebpackBundleTrackerFactory.cls); [done|].
    simpl. by rewrite Hcreate. }
  split; apply Hfirst.
Qed.

Lemma tracker_missing_publicPath_witness :
  let data :=
    VDict [("status", VStr "done");
           ("chunks",
            VDict [("vendor", VList [VDict [("publicPath", VStr "vendor.js")]]);
                   ("app", VList [VDict [("publicPath", VStr "app.js")];
                                  VDict [("name", VStr "app.css")]]);
                   ("admin", VList [VDict [("publicPath", VStr "admin.js")]])])] in
  WebpackBundleTrackerFactory.create data = Raise (KeyError "publicPath")
  ∧ ManifestLoader.load (λ _, Ok data) "manifest.json"
    = Raise (KeyError "publicPath").
Proof.
  intros data.
  edestruct (tracker_missing_publicPath
               [("status", VStr "done");
                ("chunks",
                 VDict [("vendor", VList [VDict [("publicPath", VStr "vendor.js")]]);
                        ("app", VList [VDict [("publicPath", VStr "app.js")];
                                       VDict [("name", VStr "app.css")]]);
                        ("admin", VList [VDict [("publicPath", VStr "admin.js")]])])])
    as (Hcreate & _ & Hload);
    [reflexivity | reflexivity | compute_done | by repeat constructor | |].
  - apply Exists_cons_tl, Exists_cons_hd. eexists. split; [reflexivity|].
    apply Exists_cons_tl, Exists_cons_hd. reflexivity.
  - split; [exact Hcreate|].
    by destruct (Hload (λ _, Ok data) "manifest.json" [] eq_refl).
Defined.

(** * Further properties of the module *)

(** ** Adding and looking up *)

(** X1.  [Manifest.add] of an entry whose name is not present succeeds;
    the subscript on that name then returns the entry, and the subscript on
    every other name answers as before the call. *)
Theorem add_fresh_name (self : Manifest.t) (entry : ManifestEntry.t) :
  Manifest.__getitem__ self (ManifestEntry.name entry)
  = Raise (KeyError (ManifestEntry.name entry)) →
  (Manifest.add self entry).1 = Ok ()
  ∧ Manifest.__getitem__ (Manifest.add self entry).2 (ManifestEntry.name entry)
    = Ok entry
  ∧ ∀ key, key ≠ ManifestEntry.name entry →
           Manifest.__getitem__ (Manifest.add self entry).2 key
           = Manifest.__getitem__ self key.
Proof.
  unfold Manifest.__getitem__, Manifest.add.
  destruct (Manifest._entries self !! ManifestEntry.name entry) eqn:Hname; [done|].
  intros _. rewrite bool_decide_eq_false_2 by (by intros [? ?]). simpl.
  split; [done|]. split.
  - by rewrite lookup_insert_eq.
  - intros key Hkey. by rewrite lookup_insert_ne.
Qed.

Lemma add_fresh_name_witness :
  let app := ManifestEntry "app" (VList [VStr "app.js"]) in
  let vendor := ManifestEntry "vendor" (VList [VStr "vendor.js"]) in
  let self := Manifest {[ "app" := app ]} in
  (Manifest.add self vendor).1 = Ok ()
  ∧ Manifest.__getitem__ (Manifest.add self vendor).2 "vendor" = Ok vendor
  ∧ Manifest.__getitem__ (Manifest.add self vendor).2 "app" = Ok app.
Proof.
  intros app vendor self.
  destruct (add_fresh_name self vendor eq_refl) as (Hok & Hnew & Hold).
  split; [exact Hok|]. split; [exact Hnew|].
  rewrite Hold; [reflexivity | discriminate].
Defined.

(** ** What a successful [create] tells about the document *)

(** The loop that fills the manifest returns only when every item gave its
    paths and every name was new. *)
Lemma fill_inv (f : string → value → outcome value)
    (its : list (string * value)) (m0 m : Manifest.t) :
  for_each (filling f) its m0 = Ok m →
  NoDup (keys its)
  ∧ (∀ k, k ∈ keys its → Manifest._entries m0 !! k = None)
  ∧ Forall (λ kv, ∃ p, f kv.1 kv.2 = Ok p) its.
Proof.
  revert m0. induction its as [|[k v] its IH]; intros m0.
  - intros _. split; [constructor|]. split; [|constructor].
    intros k Hk. by apply elem_of_nil in Hk.
  - change (for_each (filling f) ((k, v) :: its) m0)
      with ((f k v ≫= λ p, ManifestFactory.add_entry m0 (ManifestEntry k p))
            ≫= for_each (filling f) its).
    change (keys ((k, v) :: its)) with (k :: keys its).
    destruct (f k v) as [p|e] eqn:Hf; [rewrite bind_Ok | done].
    destruct (Manifest._entries m0 !! k) as [old|] eqn:Hk.
    { unfold ManifestFactory.add_entry, Manifest.add. cbn [ManifestEntry.name].
      rewrite bool_decide_eq_true_2 by (by exists old). done. }
    rewrite add_entry_fresh by done. rewrite bind_Ok. cbn [ManifestEntry.name].
    intros (Hnd & Hfresh & Hall)%IH. cbn [Manifest._entries] in Hfresh.
    assert (Hnotin : k ∉ keys its).
    { intros Hin. specialize (Hfresh _ Hin). by rewrite lookup_insert_eq in Hfresh. }
    split; [by constructor|]. split.
    + intros k' [->|Hin]%elem_of_cons; [done|].
      specialize (Hfresh _ Hin). rewrite lookup_insert_ne in Hfresh; [done|].
      by intros ->.
    + constructor; [by exists p | done].
Qed.

Lemma fill_lookup (f : string → value → outcome value)
    (its : list (string * value)) (m : Manifest.t) :
  for_each (filling f) its ManifestFactory.create_manifest = Ok m →
  ∀ k, Manifest._entries m !! k = produced f its k.
Proof.
  intros Hm. destruct (fill_inv _ _ _ _ Hm) as (Hnd & Hfresh & Hall).
  destruct (fill_ok f its ManifestFactory.create_manifest) as (m' & Hm' & Hlook);
    [done..|].
  rewrite Hm in Hm'. injection Hm' as <-. intros k. rewrite Hlook.
  by destruct (produced f its k).
Qed.

Lemma flat_create_inv (data : value) (m : Manifest.t) :
  WebpackManifestFactory.create data = Ok m →
  ∃ d, data = VDict d
       ∧ for_each (filling flat_paths) d ManifestFactory.create_manifest = Ok m.
Proof.
  destruct data as [| | | | | |d]; try done.
  intros Hm. exists d. split; [done|]. by rewrite <- flat_create_eq.
Qed.

Lemma yam_create_inv (data : value) (m : Manifest.t) :
  WebpackYamFactory.create data = Ok m →
  ∃ d files, data = VDict d
             ∧ dict_get "status" d = Some (VStr "built")
             ∧ dict_get "files" d = Some (VDict files)
             ∧ for_each (filling (λ _ paths, Ok paths)) files
                 ManifestFactory.create_manifest = Ok m.
Proof.
  destruct data as [| | | | | |d]; try done.
  unfold WebpackYamFactory.create. simpl.
  destruct (dict_get "status" d) as [status|] eqn:Hstatus; simpl; [|done].
  destruct (dict_get "files" d) as [files|] eqn:Hfiles; simpl; [|done].
  destruct files as [| | | | | |files]; simpl; try done;
    try (by destruct (eq_str status "built")).
  destruct (eq_str status "built") eqn:Hbuilt; simpl; [|done].
  apply eq_str_true in Hbuilt as ->.
  intros Hm. exists d, files. split; [done|]. split; [done|]. split; [done|].
  rewrite <- Hm. apply for_each_ext. by intros [??] ?.
Qed.

Lemma tracker_create_inv (data : value) (m : Manifest.t) :
  WebpackBundleTrackerFactory.create data = Ok m →
  ∃ d chunks, data = VDict d
              ∧ dict_get "status" d = Some (VStr "done")
              ∧ dict_get "chunks" d = Some (VDict chunks)
              ∧ for_each (filling tracker_paths) chunks
                  ManifestFactory.create_manifest = Ok m.
Proof.
  destruct data as [| | | | | |d]; try done.
  intros Hm.
  destruct (dict_get "status" d) as [status|] eqn:Hstatus.
  2: { rewrite tracker_create_invalid in Hm; [done|]. left. by apply dict_get_None. }
  destruct (dict_get "chunks" d) as [chunks|] eqn:Hchunks.
  2: { rewrite tracker_create_invalid in Hm; [done|]. right. by apply dict_get_None. }
  destruct (eq_str status "done") eqn:Hdone.
  2: { rewrite (tracker_create_unfinished d status) in Hm; [done|done| |].
       - apply dict_get_is_Some. by rewrite Hchunks.
       - by apply eq_str_false. }
  apply eq_str_true in Hdone as ->.
  rewrite (tracker_create_eq d chunks) in Hm by done.
  destruct chunks as [| | | | | |chunks]; try done.
  by exists d, chunks.
Qed.

Lemma produced_name (f : string → value → outcome value)
    (its : list (string * value)) (k : string) (e : ManifestEntry.t) :
  produced f its k = Some e → ManifestEntry.name e = k.
Proof.
  unfold produced. destruct (dict_get k its) as [v|]; simpl; [|done].
  destruct (f k v); [|done]. by intros [= <-].
Qed.

Lemma fill_keyed_by_name (f : string → value → outcome value)
    (its : list (string * value)) (m : Manifest.t) :
  for_each (filling f) its ManifestFactory.create_manifest = Ok m → keyed_by_name m.
Proof.
  intros Hm key entry. unfold Manifest.__getitem__.
  rewrite (fill_lookup f its m Hm).
  destruct (produced f its key) as [e|] eqn:He; [|done].
  intros [= <-]. by eapply produced_name.
Qed.

Lemma types_inv (t : ManifestFactory.class) :
  t ∈ ManifestLoader.types →
  t = WebpackBundleTrackerFactory.cls ∨ t = WebpackYamFactory.cls
  ∨ t = WebpackManifestFactory.cls.
Proof.
  unfold ManifestLoader.types. rewrite !elem_of_cons, elem_of_nil. tauto.
Qed.

Lemma try_types_Ok (ts : list ManifestFactory.class) (data : value)
    (filepath : string) (m : Manifest.t) :
  ManifestLoader.try_types ts data filepath = Ok m →
  ∃ t, t ∈ ts ∧ ManifestFactory.create t data = Ok m.
Proof.
  induction ts as [|t ts IH]; cbn [ManifestLoader.try_types]; [done|].
  destruct (is_Invalid (ManifestFactory.create t data)) eqn:Ht.
  - rewrite except_Invalid_caught by done. intros (t' & Hin & Hm)%IH.
    exists t'. split; [by apply list_elem_of_further | done].
  - rewrite except_Invalid_through by done. intros Hm.
    exists t. split; [apply list_elem_of_here | done].
Qed.

Lemma try_types_not_Invalid (ts : list ManifestFactory.class) (data : value)
    (filepath : string) :
  is_Invalid (ManifestLoader.try_types ts data filepath) = false.
Proof.
  induction ts as [|t ts IH]; cbn [ManifestLoader.try_types]; [done|].
  destruct (is_Invalid (ManifestFactory.create t data)) eqn:Ht.
  - by rewrite except_Invalid_caught.
  - by rewrite except_Invalid_through.
Qed.

Lemma load_Ok_inv (open_json : string → outcome value) (filepath : string)
    (m : Manifest.t) :
  ManifestLoader.load open_json filepath = Ok m →
  ∃ data t, open_json filepath = Ok data ∧ t ∈ ManifestLoader.types
            ∧ ManifestFactory.create t data = Ok m.
Proof.
  unfold ManifestLoader.load.
  destruct (open_json filepath) as [data|e]; [rewrite bind_Ok | done].
  intros (t & Hin & Hm)%try_types_Ok. by exists data, t.
Qed.

Lemma create_keyed_by_name (t : ManifestFactory.class) (data : value)
    (m : Manifest.t) :
  t ∈ ManifestLoader.types → ManifestFactory.create t data = Ok m →
  keyed_by_name m.
Proof.
  intros [->|[->| ->]]%types_inv; cbn [ManifestFactory.create].
  - intros (d & chunks & _ & _ & _ & Hm)%tracker_create_inv.
    by eapply fill_keyed_by_name.
  - intros (d & files & _ & _ & _ & Hm)%yam_create_inv.
    by eapply fill_keyed_by_name.
  - intros (d & _ & Hm)%flat_create_inv. by eapply fill_keyed_by_name.
Qed.

(** X2.  Whatever the document, a manifest returned by one of the three
    factories or by [ManifestLoader.load] stores every entry under the
    entry's own name: the subscript [manifest[key]] never returns an entry
    whose [name] differs from [key]. *)
Theorem manifests_keyed_by_name (m : Manifest.t) :
  (∀ t data, t ∈ ManifestLoader.types → ManifestFactory.create t data = Ok m →
             keyed_by_name m)
  ∧ (∀ open_json filepath, ManifestLoader.load open_json filepath = Ok m →
                           keyed_by_name m).
Proof.
  split.
  - intros t data. apply create_keyed_by_name.
  - intros open_json filepath (data & t & _ & Hin & Hm)%load_Ok_inv.
    by eapply create_keyed_by_name.
Qed.

Lemma manifests_keyed_by_name_witness :
  let data := VDict [("status", VStr "built");
                     ("files", VDict [("app", VList [VStr "app.js"]);
                                      ("vendor", VList [VStr "vendor.js"])])] in
  ∃ m, ManifestLoader.load (λ _, Ok data) "manifest.json" = Ok m
       ∧ keyed_by_name m
       ∧ Manifest.__getitem__ m "vendor"
         = Ok (ManifestEntry "vendor" (VList [VStr "vendor.js"])).
Proof.
  intros data. eexists. split; [reflexivity|]. split; [|reflexivity].
  apply (proj2 (manifests_keyed_by_name _) (λ _, Ok data) "manifest.json").
  reflexivity.
Defined.

(** X3.  [ManifestLoader.load] never lets an [InvalidManifestError] of a
    factory out: unless reading the file itself raised one, the result of
    [load] is not an [InvalidManifestError]. *)
Theorem load_never_Invalid (open_json : string → outcome value) (filepath : string) :
  is_Invalid (open_json filepath) = false →
  is_Invalid (ManifestLoader.load open_json filepath) = false.
Proof.
  unfold ManifestLoader.load.
  destruct (open_json filepath) as [data|e]; [|done].
  intros _. rewrite bind_Ok. apply try_types_not_Invalid.
Qed.

Lemma load_never_Invalid_witness :
  is_Invalid (ManifestLoader.load (λ _, Ok (VDict [("app", VInt 1)])) "manifest.json")
  = false
  ∧ is_Invalid (ManifestLoader.load (λ _, Raise (OSError "No such file")) "manifest.json")
    = false.
Proof.
  split.
  - by apply (load_never_Invalid (λ _, Ok (VDict [("app", VInt 1)]))).
  - by apply (load_never_Invalid (λ _, Raise (OSError "No such file"))).
Defined.

(** ** Which factory answers *)

Lemma comprehension_not_Invalid {A B} (f : A → outcome B) (l : list A) :
  (∀ x, is_Invalid (f x) = false) → is_Invalid (comprehension f l) = false.
Proof.
  intros Hf. induction l as [|x l IH]; cbn [comprehension]; [done|].
  specialize (Hf x). destruct (f x) as [y|e]; [rewrite bind_Ok | done].
  destruct (comprehension f l) as [ys|e]; done.
Qed.

Lemma tracker_paths_not_Invalid (k : string) (paths : value) :
  is_Invalid (tracker_paths k paths) = false.
Proof.
  unfold tracker_paths. destruct (iter paths) as [xs|e] eqn:Hiter.
  - rewrite bind_Ok.
    pose proof (comprehension_not_Invalid (λ x, getitem x "publicPath") xs) as Hc.
    destruct (comprehension _ xs) as [ps|e]; [done|]. apply Hc.
    intros x. destruct x as [| | | | | |dx]; try done.
    unfold getitem. by destruct (dict_get "publicPath" dx).
  - by destruct paths; simplify_eq/=.
Qed.

Lemma fill_not_Invalid (f : string → value → outcome value)
    (its : list (string * value)) (m0 : Manifest.t) :
  (∀ k v, is_Invalid (f k v) = false) →
  is_Invalid (for_each (filling f) its m0) = false.
Proof.
  intros Hf. revert m0. induction its as [|[k v] its IH]; intros m0; [done|].
  change (for_each (filling f) ((k, v) :: its) m0)
    with ((f k v ≫= λ p, ManifestFactory.add_entry m0 (ManifestEntry k p))
          ≫= for_each (filling f) its).
  specialize (Hf k v). destruct (f k v) as [p|e]; [rewrite bind_Ok | done].
  unfold ManifestFactory.add_entry, Manifest.add.
  destruct (bool_decide _); [done|]. rewrite bind_Ok. apply IH.
Qed.

Lemma tracker_not_Invalid (d : list (string * value)) :
  "status" ∈ keys d → "chunks" ∈ keys d →
  is_Invalid (WebpackBundleTrackerFactory.create (VDict d)) = false.
Proof.
  intros [status Hstatus]%dict_get_is_Some Hin.
  pose proof Hin as [chunks Hchunks]%dict_get_is_Some.
  destruct (eq_str status "done") eqn:Hdone.
  - apply eq_str_true in Hdone as ->.
    rewrite (tracker_create_eq d chunks) by done.
    destruct chunks as [| | | | | |cs]; try done.
    change (items (VDict cs)) with (Ok cs). rewrite bind_Ok.
    apply fill_not_Invalid, tracker_paths_not_Invalid.
  - rewrite (tracker_create_unfinished d status); [done..|]. by apply eq_str_false.
Qed.

(** X4.  A JSON object that has both a ['status'] and a ['chunks'] key is
    answered by the bundle-tracker factory alone: [ManifestLoader.load]
    returns or raises what that factory does, and the yam and flat factories
    are never consulted.  In particular such a document whose status is not
    ['done'] -- a finished yam manifest with a stray ['chunks'] key, say --
    makes [load] raise [UnfinishedManifestError]. *)
Theorem status_and_chunks_go_to_tracker
    (open_json : string → outcome value) (filepath : string)
    (d : list (string * value)) :
  open_json filepath = Ok (VDict d) →
  "status" ∈ keys d → "chunks" ∈ keys d →
  ManifestLoader.load open_json filepath
  = WebpackBundleTrackerFactory.create (VDict d)
  ∧ (dict_get "status" d ≠ Some (VStr "done") →
     ManifestLoader.load open_json filepath
     = Raise (UnfinishedManifestError (VDict d))).
Proof.
  intros Hopen Hstatus Hchunks. rewrite (load_parsed _ _ _ Hopen).
  assert (Hload : ManifestLoader.try_types ManifestLoader.types (VDict d) filepath
                  = WebpackBundleTrackerFactory.create (VDict d)).
  { apply (try_types_decided [] _ WebpackBundleTrackerFactory.cls); [done|].
    by apply tracker_not_Invalid. }
  split; [done|]. intros Hne. rewrite Hload.
  pose proof Hstatus as [status Hs]%dict_get_is_Some.
  apply (tracker_create_unfinished d status); [done..|]. congruence.
Qed.

Lemma status_and_chunks_go_to_tracker_witness :
  let data := VDict [("status", VStr "built");
                     ("files", VDict [("app", VList [VStr "app.js"])]);
                     ("chunks", VDict [])] in
  WebpackYamFactory.create data
  = Ok (Manifest {[ "app" := ManifestEntry "app" (VList [VStr "app.js"]) ]})
  ∧ ManifestLoader.load (λ _, Ok data) "manifest.json"
    = Raise (UnfinishedManifestError data).
Proof.
  intros data. split; [reflexivity|].
  edestruct (status_and_chunks_go_to_tracker (λ _, Ok data) "manifest.json")
    as [_ Hunfinished]; [reflexivity | compute_done | compute_done |].
  apply Hunfinished. discriminate.
Defined.

Lemma flat_create_strings (d : list (string * value)) (m : Manifest.t) :
  for_each (filling flat_paths) d ManifestFactory.create_manifest = Ok m →
  Forall (λ kv, isinstance_str kv.2 = true) d.
Proof.
  intros (_ & _ & Hall)%fill_inv. eapply Forall_impl; [exact Hall|].
  intros [k v] [p Hp]. simpl in *. unfold flat_paths in Hp.
  by destruct (isinstance_str v).
Qed.

Lemma strings_lookup (d : list (string * value)) (key : string) (v : value) :
  Forall (λ kv, isinstance_str kv.2 = true) d →
  dict_get key d = Some v → ∃ s, v = VStr s.
Proof.
  intros Hall Hv%dict_get_elem_of. rewrite Forall_forall in Hall.
  specialize (Hall _ Hv). destruct v; try done. by eexists.
Qed.

Lemma factories_exclude (data : value) :
  is_Ok (WebpackBundleTrackerFactory.create data)
  && is_Ok (WebpackYamFactory.create data) = false
  ∧ is_Ok (WebpackBundleTrackerFactory.create data)
    && is_Ok (WebpackManifestFactory.create data) = false
  ∧ is_Ok (WebpackYamFactory.create data)
    && is_Ok (WebpackManifestFactory.create data) = false.
Proof.
  destruct (WebpackBundleTrackerFactory.create data) as [m1|e1] eqn:H1;
  destruct (WebpackYamFactory.create data) as [m2|e2] eqn:H2;
  destruct (WebpackManifestFactory.create data) as [m3|e3] eqn:H3;
  simpl; try done; exfalso.
  all: try apply tracker_create_inv in H1 as (d1 & chunks & -> & Hs1 & Hc1 & _).
  all: try apply yam_create_inv in H2 as (d2 & files & Hd2 & Hs2 & Hf2 & _).
  all: try apply flat_create_inv in H3 as (d3 & Hd3 & Hall%flat_create_strings).
  all: simplify_eq.
  all: try (by destruct (strings_lookup _ _ _ Hall Hc1)).
  all: try (by destruct (strings_lookup _ _ _ Hall Hf2)).
Qed.

(** X5.  The three factories exclude one another: whatever the document,
    at most one of their [create] returns a manifest. *)
Theorem at_most_one_factory_accepts (data : value) :
  is_Ok (WebpackBundleTrackerFactory.create data)
  && is_Ok (WebpackYamFactory.create data) = false
  ∧ is_Ok (WebpackBundleTrackerFactory.create data)
    && is_Ok (WebpackManifestFactory.create data) = false
  ∧ is_Ok (WebpackYamFactory.create data)
    && is_Ok (WebpackManifestFactory.create data) = false.
Proof. apply factories_exclude. Qed.

(** X6.  A manifest comes out of the bundle-tracker or the yam factory
    only for a finished build.  If [WebpackBundleTrackerFactory.create]
    returns a manifest, the document is an object whose status is ['done']
    and whose ['chunks'] is an object, and the names of the manifest are
    exactly the chunk names.  If [WebpackYamFactory.create] returns a
    manifest, the document is an object whose status is ['built'] and whose
    ['files'] is an object, and the manifest holds exactly one entry per
    key of ['files'], with the value under the key as paths. *)
Theorem manifest_only_when_finished (data : value) (m : Manifest.t) :
  (WebpackBundleTrackerFactory.create data = Ok m →
   ∃ d chunks, data = VDict d
               ∧ dict_get "status" d = Some (VStr "done")
               ∧ dict_get "chunks" d = Some (VDict chunks)
               ∧ ∀ name, is_Ok (Manifest.__getitem__ m name)
                         = bool_decide (name ∈ keys chunks))
  ∧ (WebpackYamFactory.create data = Ok m →
     ∃ d files, data = VDict d
                ∧ dict_get "status" d = Some (VStr "built")
                ∧ dict_get "files" d = Some (VDict files)
                ∧ ∀ name, Manifest.__getitem__ m name
                          = match dict_get name files with
                            | Some paths => Ok (ManifestEntry name paths)
                            | None => Raise (KeyError name)
                            end).
Proof.
  split.
  - intros (d & chunks & -> & Hstatus & Hchunks & Hm)%tracker_create_inv.
    exists d, chunks. repeat (split; [done|]). intros name.
    unfold Manifest.__getitem__. rewrite (fill_lookup _ _ _ Hm). unfold produced.
    destruct (fill_inv _ _ _ _ Hm) as (_ & _ & Hall).
    destruct (dict_get name chunks) as [paths|] eqn:Hname; simpl.
    + rewrite bool_decide_eq_true_2 by (apply dict_get_is_Some; by rewrite Hname).
      apply dict_get_elem_of in Hname. rewrite Forall_forall in Hall.
      destruct (Hall _ Hname) as [p Hp]. simpl in Hp. by rewrite Hp.
    + by rewrite bool_decide_eq_false_2 by (by apply dict_get_None).
  - intros (d & files & -> & Hstatus & Hfiles & Hm)%yam_create_inv.
    exists d, files. repeat (split; [done|]). intros name.
    unfold Manifest.__getitem__. rewrite (fill_lookup _ _ _ Hm). unfold produced.
    by destruct (dict_get name files).
Qed.

Lemma manifest_only_when_finished_witness :
  let tracker := VDict [("status", VStr "done");
                        ("chunks", VDict [("app", VList []); ("vendor", VDict [])])] in
  let yam := VDict [("status", VStr "built"); ("files", VDict [("app", VInt 7)])] in
  (∃ m, WebpackBundleTrackerFactory.create tracker = Ok m
        ∧ is_Ok (Manifest.__getitem__ m "vendor") = true
        ∧ is_Ok (Manifest.__getitem__ m "status") = false)
  ∧ (∃ m, WebpackYamFactory.create yam = Ok m
          ∧ Manifest.__getitem__ m "app" = Ok (ManifestEntry "app" (VInt 7))).
Proof.
  intros tracker yam. split.
  - eexists. split; [reflexivity|].
    edestruct (manifest_only_when_finished tracker) as [Htracker _].
    destruct Htracker as (d & chunks & [= <-] & _ & [= <-] & Hnames); [reflexivity|].
    by rewrite !Hnames.
  - eexists. split; [reflexivity|].
    edestruct (manifest_only_when_finished yam) as [_ Hyam].
    destruct Hyam as (d & files & [= <-] & _ & [= <-] & Hnames); [reflexivity|].
    by rewrite Hnames.
Defined.

(** X7.  [WebpackManifestFactory.create] returns a manifest only for an
    object whose values are all strings, and the manifest then holds
    exactly one entry per key, with the one-element list of the value as
    paths: nothing is dropped and nothing is added. *)
Theorem flat_create_only_strings (data : value) (m : Manifest.t) :
  WebpackManifestFactory.create data = Ok m →
  ∃ d, data = VDict d
       ∧ Forall (λ kv, isinstance_str kv.2 = true) d
       ∧ ∀ name, Manifest.__getitem__ m name
                 = match dict_get name d with
                   | Some path => Ok (ManifestEntry name (VList [path]))
                   | None => Raise (KeyError name)
                   end.
Proof.
  intros (d & -> & Hm)%flat_create_inv. exists d. split; [done|].
  pose proof (flat_create_strings _ _ Hm) as Hall. split; [done|].
  intros name. unfold Manifest.__getitem__.
  rewrite (fill_lookup _ _ _ Hm). unfold produced.
  destruct (dict_get name d) as [path|] eqn:Hname; simpl; [|done].
  destruct (strings_lookup _ _ _ Hall Hname) as [s ->]. done.
Qed.

Lemma flat_create_only_strings_witness :
  let data := VDict [("app", VStr "app.js"); ("style", VStr "app.css")] in
  ∃ m, WebpackManifestFactory.create data = Ok m
       ∧ Manifest.__getitem__ m "style"
         = Ok (ManifestEntry "style" (VList [VStr "app.css"]))
       ∧ Manifest.__getitem__ m "app.css" = Raise (KeyError "app.css").
Proof.
  intros data. eexists. split; [reflexivity|].
  edestruct (flat_create_only_strings data) as (d & [= <-] & _ & Hnames);
    [reflexivity|].
  by rewrite !Hnames.
Defined.

(** X8.  [ManifestLoader.load] and the [load] of a single factory class
    never disagree on a manifest: if both return one for the same file, it
    is the same manifest; and what the bundle-tracker class loads, the
    loader loads. *)
Theorem loader_agrees_with_factory
    (open_json : string → outcome value) (filepath : string)
    (cls : ManifestFactory.class) (m : Manifest.t) :
  cls ∈ ManifestLoader.types →
  ManifestFactory.load cls open_json filepath = Ok m →
  (∀ m', ManifestLoader.load open_json filepath = Ok m' → m' = m)
  ∧ (cls = WebpackBundleTrackerFactory.cls →
     ManifestLoader.load open_json filepath = Ok m).
Proof.
  intros Hcls Hload. unfold ManifestFactory.load in Hload.
  destruct (open_json filepath) as [data|e] eqn:Hopen; [|done].
  rewrite bind_Ok in Hload. split.
  - intros m' (data' & t & Hopen' & Ht & Hm')%load_Ok_inv.
    rewrite Hopen in Hopen'. injection Hopen' as <-.
    destruct (factories_exclude data) as (H12 & H13 & H23).
    apply types_inv in Hcls as [->|[->| ->]];
      apply types_inv in Ht as [->|[->| ->]];
      cbn [ManifestFactory.create WebpackBundleTrackerFactory.cls
           WebpackYamFactory.cls WebpackManifestFactory.cls] in Hload, Hm';
      try rewrite Hload in H12; try rewrite Hload in H13;
      try rewrite Hload in H23; try rewrite Hm' in H12;
      try rewrite Hm' in H13; try rewrite Hm' in H23;
      simpl in H12, H13, H23; try done; congruence.
  - intros ->. rewrite (load_parsed _ _ _ Hopen). rewrite <- Hload.
    apply (try_types_decided [] _ WebpackBundleTrackerFactory.cls); [done|].
    by rewrite Hload.
Qed.

Lemma loader_agrees_with_factory_witness :
  let data := VDict [("app", VStr "app.js")] in
  let m := Manifest {[ "app" := ManifestEntry "app" (VList [VStr "app.js"]) ]} in
  ManifestFactory.load WebpackManifestFactory.cls (λ _, Ok data) "manifest.json" = Ok m
  ∧ ManifestLoader.load (λ _, Ok data) "manifest.json" = Ok m.
Proof.
  intros data m. split; [reflexivity|].
  edestruct (loader_agrees_with_factory (λ _, Ok data) "manifest.json"
               WebpackManifestFactory.cls m) as [Hsame _];
    [apply list_elem_of_further, list_elem_of_further, list_elem_of_here
    | reflexivity |].
  rewrite <- (Hsame _ eq_refl). reflexivity.
Defined.

(** ** From the file to the tags *)

Lemma render_strings_mapped (name : string) (paths : list string) :
  Forall mapped paths →
  ManifestEntry.render (ManifestEntry name (VList (VStr <$> paths)))
  = Ok (join (tag <$> paths)).
Proof.
  intros Hall. unfold ManifestEntry.render. cbn [ManifestEntry._paths iter].
  by rewrite bind_Ok, render_loop_mapped.
Qed.

Lemma render_single (name p : string) :
  ManifestEntry.render (ManifestEntry name (VList [VStr p]))
  = if decide (mapped p) then Ok (tag p) else Raise (UnsupportedExtensionError p).
Proof.
  unfold ManifestEntry.render.
  cbn [ManifestEntry._paths iter]. rewrite bind_Ok. cbn [for_each].
  destruct (decide (mapped p)) as [Hp|Hp].
  - rewrite render_path_mapped by done. rewrite !bind_Ok.
    unfold join. cbn [app fold_right]. f_equal.
    induction (tag p) as [|c s IH]; [done|].
    change (String c s ++ EmptyString) with (String c (s ++ EmptyString)).
    by rewrite IH.
  - by rewrite render_path_unmapped.
Qed.

Lemma load_of_accepting (open_json : string → outcome value) (filepath : string)
    (data : value) (ts1 ts2 : list ManifestFactory.class)
    (t : ManifestFactory.class) (m : Manifest.t) :
  open_json filepath = Ok data →
  ManifestLoader.types = (ts1 ++ t :: ts2)%list →
  Forall (λ t', is_Invalid (ManifestFactory.create t' data) = true) ts1 →
  ManifestFactory.create t data = Ok m →
  ManifestLoader.load open_json filepath = Ok m.
Proof.
  intros Hopen Htypes Hpre Hm. rewrite (load_parsed _ _ _ Hopen), Htypes.
  rewrite <- Hm. apply try_types_decided; [done|]. by rewrite Hm.
Qed.

(** X9.  Loading a finished bundle-tracker manifest: when the file holds an
    object with status ['done'] whose ['chunks'] maps each name to a list
    of descriptors having a ['publicPath'], [ManifestLoader.load] returns a
    manifest with exactly one entry per chunk name, whatever other keys the
    object has; and when the public paths of a chunk are strings with a
    [.js] or [.css] extension, rendering its entry gives their tags in
    order. *)
Theorem load_tracker_manifest
    (open_json : string → outcome value) (filepath : string)
    (d chunks : list (string * value)) :
  open_json filepath = Ok (VDict d) →
  dict_get "status" d = Some (VStr "done") →
  dict_get "chunks" d = Some (VDict chunks) →
  NoDup (keys chunks) →
  Forall (λ kv, is_Some (public_paths kv.2)) chunks →
  ∃ m, ManifestLoader.load open_json filepath = Ok m
       ∧ (∀ name, Manifest.__getitem__ m name
                  = match dict_get name chunks ≫= public_paths with
                    | Some ps => Ok (ManifestEntry name (VList ps))
                    | None => Raise (KeyError name)
                    end)
       ∧ (∀ name ps, dict_get name chunks ≫= public_paths = Some (VStr <$> ps) →
                     Forall mapped ps →
                     Manifest.__getitem__ m name ≫= ManifestEntry.render
                     = Ok (join (tag <$> ps))).
Proof.
  intros Hopen Hstatus Hchunks Hnd Hall.
  destruct (tracker_create_ok d chunks) as (m & Hm & Hlook); [done..|].
  assert (Hget : ∀ name, Manifest.__getitem__ m name
                         = match dict_get name chunks ≫= public_paths with
                           | Some ps => Ok (ManifestEntry name (VList ps))
                           | None => Raise (KeyError name)
                           end).
  { intros name. unfold Manifest.__getitem__. rewrite Hlook.
    destruct (dict_get name chunks) as [paths|]; simpl; [|done].
    by destruct (public_paths paths). }
  exists m. split; [|split; [done|]].
  - by apply (load_of_accepting _ _ (VDict d) []
                [WebpackYamFactory.cls; WebpackManifestFactory.cls]
                WebpackBundleTrackerFactory.cls).
  - intros name ps Hps Hmapped. rewrite Hget, Hps, bind_Ok.
    by apply render_strings_mapped.
Qed.

Lemma load_tracker_manifest_witness :
  let data :=
    VDict [("status", VStr "done");
           ("publicPath", VStr "/static/");
           ("chunks",
            VDict [("app", VList [VDict [("name", VStr "app.js");
                                         ("publicPath", VStr "/static/app.js")];
                                  VDict [("publicPath", VStr "/static/app.css")]])])] in
  ∃ m, ManifestLoader.load (λ _, Ok data) "manifest.json" = Ok m
       ∧ Manifest.__getitem__ m "app" ≫= ManifestEntry.render
         = Ok (join [script_tag "/static/app.js"; link_tag "/static/app.css"]).
Proof.
  intros data.
  edestruct (load_tracker_manifest (λ _, Ok data) "manifest.json")
    as (m & Hm & _ & Hrender);
    [reflexivity | reflexivity | reflexivity | compute_done | |].
  - repeat constructor; by eexists.
  - exists m. split; [exact Hm|].
    rewrite (Hrender "app" ["/static/app.js"; "/static/app.css"]); [reflexivity..|].
    constructor; [by left|]. constructor; [by right|]. constructor.
Defined.

(** X10.  Loading a finished yam manifest: when the file holds an object
    with status ['built'] whose ['files'] is an object, and the object has
    no ['chunks'] key, [ManifestLoader.load] returns a manifest with
    exactly one entry per key of ['files']; and when the value under a key
    is a list of strings with a [.js] or [.css] extension, rendering its
    entry gives their tags in order. *)
Theorem load_yam_manifest
    (open_json : string → outcome value) (filepath : string)
    (d files : list (string * value)) :
  open_json filepath = Ok (VDict d) →
  "chunks" ∉ keys d →
  dict_get "status" d = Some (VStr "built") →
  dict_get "files" d = Some (VDict files) →
  NoDup (keys files) →
  ∃ m, ManifestLoader.load open_json filepath = Ok m
       ∧ (∀ name, Manifest.__getitem__ m name
                  = match dict_get name files with
                    | Some paths => Ok (ManifestEntry name paths)
                    | None => Raise (KeyError name)
                    end)
       ∧ (∀ name ps, dict_get name files = Some (VList (VStr <$> ps)) →
                     Forall mapped ps →
                     Manifest.__getitem__ m name ≫= ManifestEntry.render
                     = Ok (join (tag <$> ps))).
Proof.
  intros Hopen Hnochunks Hstatus Hfiles Hnd.
  destruct (yam_create_ok d files) as (m & Hm & Hlook); [done..|].
  assert (Hget : ∀ name, Manifest.__getitem__ m name
                         = match dict_get name files with
                           | Some paths => Ok (ManifestEntry name paths)
                           | None => Raise (KeyError name)
                           end).
  { intros name. unfold Manifest.__getitem__. rewrite Hlook.
    by destruct (dict_get name files). }
  exists m. split; [|split; [done|]].
  - apply (load_of_accepting _ _ (VDict d) [WebpackBundleTrackerFactory.cls]
             [WebpackManifestFactory.cls] WebpackYamFactory.cls);
      [done|done| |done].
    constructor; [|constructor]. cbn [ManifestFactory.create WebpackBundleTrackerFactory.cls].
    rewrite tracker_create_invalid; [done|]. by right.
  - intros name ps Hps Hmapped. rewrite Hget, Hps, bind_Ok.
    by apply render_strings_mapped.
Qed.

Lemma load_yam_manifest_witness :
  let data :=
    VDict [("status", VStr "built");
           ("files", VDict [("app", VList [VStr "app.js"; VStr "app.css"])])] in
  ∃ m, ManifestLoader.load (λ _, Ok data) "manifest.json" = Ok m
       ∧ Manifest.__getitem__ m "app" ≫= ManifestEntry.render
         = Ok (join [script_tag "app.js"; link_tag "app.css"]).
Proof.
  intros data.
  edestruct (load_yam_manifest (λ _, Ok data) "manifest.json")
    as (m & Hm & _ & Hrender);
    [reflexivity | compute_done | reflexivity | reflexivity | compute_done |].
  exists m. split; [exact Hm|].
  rewrite (Hrender "app" ["app.js"; "app.css"]); [reflexivity..|].
  constructor; [by left|]. constructor; [by right|]. constructor.
Defined.

(** X11.  Loading a flat manifest: when the file holds an object whose
    values are all strings and which lacks ['status'], or lacks both
    ['chunks'] and ['files'], [ManifestLoader.load] returns a manifest with
    exactly one entry per key; rendering the entry of a key gives the tag
    of its value when the value has a [.js] or [.css] extension, and
    raises [UnsupportedExtensionError] with the value otherwise. *)
Theorem load_flat_manifest
    (open_json : string → outcome value) (filepath : string)
    (d : list (string * value)) :
  open_json filepath = Ok (VDict d) →
  NoDup (keys d) →
  Forall (λ kv, isinstance_str kv.2 = true) d →
  "status" ∉ keys d ∨ (("chunks" ∉ keys d) ∧ ("files" ∉ keys d)) →
  ∃ m, ManifestLoader.load open_json filepath = Ok m
       ∧ (∀ name, Manifest.__getitem__ m name
                  = match dict_get name d with
                    | Some path => Ok (ManifestEntry name (VList [path]))
                    | None => Raise (KeyError name)
                    end)
       ∧ (∀ name p, dict_get name d = Some (VStr p) →
                    Manifest.__getitem__ m name ≫= ManifestEntry.render
                    = if decide (mapped p) then Ok (tag p)
                      else Raise (UnsupportedExtensionError p)).
Proof.
  intros Hopen Hnd Hall Hshape.
  destruct (flat_create_ok d) as (m & Hm & Hlook); [done..|].
  assert (Hget : ∀ name, Manifest.__getitem__ m name
                         = match dict_get name d with
                           | Some path => Ok (ManifestEntry name (VList [path]))
                           | None => Raise (KeyError name)
                           end).
  { intros name. unfold Manifest.__getitem__. rewrite Hlook.
    by destruct (dict_get name d). }
  exists m. split; [|split; [done|]].
  - apply (load_of_accepting _ _ (VDict d)
             [WebpackBundleTrackerFactory.cls; WebpackYamFactory.cls] []
             WebpackManifestFactory.cls); [done|done| |done].
    constructor; [|constructor; [|constructor]];
      cbn [ManifestFactory.create WebpackBundleTrackerFactory.cls
           WebpackYamFactory.cls].
    + rewrite tracker_create_invalid; [done|]. tauto.
    + rewrite yam_create_invalid; [done|]. tauto.
  - intros name p Hp. rewrite Hget, Hp, bind_Ok. apply render_single.
Qed.

Lemma load_flat_manifest_witness :
  let data := VDict [("app", VStr "/static/app.3f2a.js");
                     ("logo", VStr "/static/logo.png");
                     ("files", VStr "/static/files.css")] in
  ∃ m, ManifestLoader.load (λ _, Ok data) "manifest.json" = Ok m
       ∧ Manifest.__getitem__ m "app" ≫= ManifestEntry.render
         = Ok (script_tag "/static/app.3f2a.js")
       ∧ Manifest.__getitem__ m "logo" ≫= ManifestEntry.render
         = Raise (UnsupportedExtensionError "/static/logo.png").
Proof.
  intros data.
  edestruct (load_flat_manifest (λ _, Ok data) "manifest.json")
    as (m & Hm & _ & Hrender); [reflexivity | compute_done | | |].
  - repeat constructor.
  - left. compute_done.
  - exists m. split; [exact Hm|]. split.
    + by rewrite (Hrender "app" "/static/app.3f2a.js").
    + by rewrite (Hrender "logo" "/static/logo.png").
Defined.

Lemma try_types_cons_through (t : ManifestFactory.class)
    (ts : list ManifestFactory.class) (data : value) (filepath : string) :
  is_Invalid (ManifestFactory.create t data) = false →
  ManifestLoader.try_types (t :: ts) data filepath = ManifestFactory.create t data.
Proof. apply except_Invalid_through. Qed.

Lemma try_types_cons_caught (t : ManifestFactory.class)
    (ts : list ManifestFactory.class) (data : value) (filepath : string) :
  is_Invalid (ManifestFactory.create t data) = true →
  ManifestLoader.try_types (t :: ts) data filepath
  = ManifestLoader.try_types ts data filepath.
Proof. apply except_Invalid_caught. Qed.

(** X12.  A flat manifest with an asset named ['status'] and one named
    ['chunks'] or ['files'] cannot be loaded, although the flat factory
    accepts it: the bundle-tracker factory (when ['chunks'] is there) or
    the yam factory (otherwise) takes the document for its own, and
    [ManifestLoader.load] raises [UnfinishedManifestError], or an
    [AttributeError] when the value under ['status'] happens to be that
    factory's marker of a finished build. *)
Theorem flat_manifest_shadowed
    (open_json : string → outcome value) (filepath : string)
    (d : list (string * value)) (status : string) :
  open_json filepath = Ok (VDict d) →
  Forall (λ kv, isinstance_str kv.2 = true) d →
  dict_get "status" d = Some (VStr status) →
  "chunks" ∈ keys d ∨ "files" ∈ keys d →
  ManifestLoader.load open_json filepath
  = if String.eqb status
         (if bool_decide ("chunks" ∈ keys d) then "done" else "built")
    then Raise (AttributeError "'str' object has no attribute 'items'")
    else Raise (UnfinishedManifestError (VDict d)).
Proof.
  intros Hopen Hall Hstatus Hkeys. rewrite (load_parsed _ _ _ Hopen).
  assert (Hin : "status" ∈ keys d) by (apply dict_get_is_Some; by rewrite Hstatus).
  destruct (decide ("chunks" ∈ keys d)) as [Hchunks|Hchunks].
  - rewrite bool_decide_eq_true_2 by done.
    unfold ManifestLoader.types.
    rewrite try_types_cons_through by (by apply tracker_not_Invalid).
    cbn [ManifestFactory.create WebpackBundleTrackerFactory.cls].
    pose proof Hchunks as [chunks Hc]%dict_get_is_Some.
    destruct (strings_lookup _ _ _ Hall Hc) as [c ->].
    destruct (String.eqb_spec status "done") as [->|Hne].
    + by rewrite (tracker_create_eq d (VStr c)).
    + apply (tracker_create_unfinished d (VStr status)); [done..|]. congruence.
  - rewrite bool_decide_eq_false_2 by done.
    destruct Hkeys as [?|Hfiles]; [done|].
    pose proof Hfiles as [files Hf]%dict_get_is_Some.
    destruct (strings_lookup _ _ _ Hall Hf) as [f ->].
    assert (Hyam : WebpackYamFactory.create (VDict d)
                   = if String.eqb status "built"
                     then Raise (AttributeError "'str' object has no attribute 'items'")
                     else Raise (UnfinishedManifestError (VDict d))).
    { unfold WebpackYamFactory.create, getitem. rewrite Hstatus, Hf.
      cbn [mbind outcome_bind except_KeyError WebpackYamFactory.is_None eq_str orb].
      by destruct (String.eqb status "built"). }
    unfold ManifestLoader.types.
    rewrite try_types_cons_caught, try_types_cons_through.
    + done.
    + cbn [ManifestFactory.create WebpackYamFactory.cls]. rewrite Hyam.
      by destruct (String.eqb status "built").
    + cbn [ManifestFactory.create WebpackBundleTrackerFactory.cls].
      rewrite tracker_create_invalid; [done|]. by right.
Qed.

Lemma flat_manifest_shadowed_witness :
  let data := VDict [("status", VStr "/static/status.js");
                     ("files", VStr "/static/files.js")] in
  is_Ok (WebpackManifestFactory.create data) = true
  ∧ ManifestLoader.load (λ _, Ok data) "manifest.json"
    = Raise (UnfinishedManifestError data).
Proof.
  intros data. split; [reflexivity|].
  by rewrite (flat_manifest_shadowed (λ _, Ok data) "manifest.json"
                [("status", VStr "/static/status.js");
                 ("files", VStr "/static/files.js")] "/static/status.js" eq_refl);
    [| repeat constructor | reflexivity | right; compute_done].
Defined.

(** ** [splitext] on a path taken apart *)

Lemma append_cons (c : ascii) (s t : string) : String c s ++ t = String c (s ++ t).
Proof. reflexivity. Qed.

Lemma append_nil_r (s : string) : s ++ EmptyString = s.
Proof. induction s as [|c s IH]; [done|]. by rewrite append_cons, IH. Qed.

Lemma append_assoc (s t u : string) : (s ++ t) ++ u = s ++ (t ++ u).
Proof. induction s as [|c s IH]; [done|]. by rewrite !append_cons, IH. Qed.

Lemma length_append (s t : string) :
  String.length (s ++ t) = (String.length s + String.length t)%nat.
Proof. induction s as [|c s IH]; [done|]. rewrite append_cons. simpl. by rewrite IH. Qed.

Lemma occurs_append (c : ascii) (s t : string) :
  occurs c (s ++ t) = occurs c s || occurs c t.
Proof.
  induction s as [|a s IH]; [done|]. rewrite append_cons. simpl.
  by rewrite IH, orb_assoc.
Qed.

Lemma get_append_here (pre s : string) (a : ascii) :
  String.get (String.length pre) (pre ++ String a s) = Some a.
Proof. induction pre as [|c pre IH]; [done|]. by rewrite append_cons. Qed.

Lemma substring_take (s t : string) : substring 0 (String.length s) (s ++ t) = s.
Proof.
  induction s as [|c s IH]; simpl.
  - by destruct t.
  - by rewrite IH.
Qed.

Lemma substring_all (t : string) : substring 0 (String.length t) t = t.
Proof. induction t as [|c t IH]; simpl; [done|]. by rewrite IH. Qed.

Lemma substring_drop (s t : string) :
  substring (String.length s) (String.length (s ++ t) - String.length s) (s ++ t) = t.
Proof.
  induction s as [|c s IH].
  - simpl. rewrite Nat.sub_0_r. apply substring_all.
  - rewrite append_cons. simpl. apply IH.
Qed.

Lemma rfind_from_append (c : ascii) (s t : string) (i last : Z) :
  rfind_from c (s ++ t) i last
  = rfind_from c t (i + Z.of_nat (String.length s)) (rfind_from c s i last).
Proof.
  revert i last. induction s as [|a s IH]; intros i last.
  - simpl. by rewrite Z.add_0_r.
  - rewrite append_cons. simpl rfind_from. rewrite IH. f_equal.
    simpl String.length. lia.
Qed.

Lemma rfind_from_absent (c : ascii) (s : string) (i last : Z) :
  occurs c s = false → rfind_from c s i last = last.
Proof.
  revert i last. induction s as [|a s IH]; intros i last; simpl; [done|].
  intros [-> Hs]%orb_false_iff. by apply IH.
Qed.

Lemma rfind_from_bounds (c : ascii) (s : string) (i last : Z) :
  rfind_from c s i last = last
  ∨ i ≤ rfind_from c s i last < i + Z.of_nat (String.length s).
Proof.
  revert i last. induction s as [|a s IH]; intros i last; [by left|].
  simpl rfind_from. simpl String.length.
  destruct (IH (i + 1) (if Ascii.eqb a c then i else last)) as [->|Hin].
  - destruct (Ascii.eqb a c); [right; lia | by left].
  - right. lia.
Qed.

Lemma rfind_sep_dirname (dir rest : string) :
  is_dirname dir → occurs "/" rest = false →
  rfind "/" (dir ++ rest) = Z.of_nat (String.length dir) - 1.
Proof.
  intros Hdir Hrest. unfold rfind. rewrite rfind_from_append.
  rewrite (rfind_from_absent _ rest) by done.
  destruct Hdir as [->|[d ->]]; [done|].
  rewrite rfind_from_append, length_append. simpl. lia.
Qed.

Lemma rfind_dot_dirname (dir rest : string) :
  is_dirname dir → occurs "." rest = false →
  rfind "." (dir ++ rest) ≤ Z.of_nat (String.length dir) - 1.
Proof.
  intros Hdir Hrest. unfold rfind. rewrite rfind_from_append.
  rewrite (rfind_from_absent _ rest) by done.
  destruct Hdir as [->|[d ->]]; [done|].
  rewrite rfind_from_append, length_append. simpl.
  destruct (rfind_from_bounds "." d 0 (-1)) as [->|?]; lia.
Qed.

Lemma splitext_scan_step (p : string) (i n : nat) :
  splitext_scan p i (S n)
  = match String.get i p with
    | Some c => if Ascii.eqb c "." then splitext_scan p (S i) n else true
    | None => true
    end.
Proof.
  simpl. destruct (String.get i p) as [[[] [] [] [] [] [] [] []]|]; reflexivity.
Qed.

Lemma splitext_scan_spec (pre b suf : string) :
  splitext_scan (pre ++ b ++ suf) (String.length pre) (String.length b)
  = negb (all_dots b).
Proof.
  revert pre. induction b as [|a b IH]; intros pre; [done|].
  simpl String.length. rewrite splitext_scan_step.
  rewrite append_cons, get_append_here. simpl all_dots.
  destruct (Ascii.eqb_spec a ".") as [->|Hne]; [|done].
  specialize (IH (pre ++ ".")). rewrite length_append in IH. simpl in IH.
  rewrite Nat.add_1_r, append_assoc in IH. exact IH.
Qed.

(** A file name [base.e] under a directory prefix: the extension is [.e]
    unless [base] is nothing but dots. *)
Lemma splitext_with_extension (dir base e : string) :
  is_dirname dir →
  occurs "/" base = false → occurs "/" e = false → occurs "." e = false →
  splitext (dir ++ base ++ "." ++ e)
  = if all_dots base then (dir ++ base ++ "." ++ e, EmptyString)
    else (dir ++ base, "." ++ e).
Proof.
  intros Hdir Hbase He Hdot. unfold splitext.
  rewrite rfind_sep_dirname
    by (done || by rewrite !occurs_append, Hbase, He).
  assert (Hdotindex : rfind "." (dir ++ base ++ "." ++ e)
                      = Z.of_nat (String.length dir + String.length base)).
  { unfold rfind. rewrite <- append_assoc, rfind_from_append, length_append.
    simpl rfind_from. rewrite rfind_from_absent by done. lia. }
  rewrite Hdotindex.
  replace (Z.of_nat (String.length dir) - 1
           <? Z.of_nat (String.length dir + String.length base))
    with true by (symmetry; apply Z.ltb_lt; lia).
  replace (Z.to_nat (Z.of_nat (String.length dir) - 1 + 1))
    with (String.length dir) by lia.
  replace (Z.to_nat (Z.of_nat (String.length dir + String.length base)
                     - (Z.of_nat (String.length dir) - 1 + 1)))
    with (String.length base) by lia.
  rewrite splitext_scan_spec. simpl andb.
  destruct (all_dots base); [done|]. simpl negb. cbv iota.
  unfold str_take, str_drop. rewrite Nat2Z.id, <- length_append, <- append_assoc.
  by rewrite substring_take, substring_drop.
Qed.

(** A file name without a dot under a directory prefix has no extension. *)
Lemma splitext_without_dot (dir base : string) :
  is_dirname dir → occurs "/" base = false → occurs "." base = false →
  splitext (dir ++ base) = (dir ++ base, EmptyString).
Proof.
  intros Hdir Hsep Hdot. unfold splitext.
  rewrite rfind_sep_dirname by done.
  pose proof (rfind_dot_dirname dir base Hdir Hdot) as Hle.
  replace (Z.of_nat (String.length dir) - 1 <? rfind "." (dir ++ base))
    with false by (symmetry; apply Z.ltb_ge; lia).
  done.
Qed.

(** ** Rendering, further *)

Lemma extension_with_extension (dir base e : string) :
  is_dirname dir →
  occurs "/" base = false → all_dots base = false →
  occurs "/" e = false → occurs "." e = false →
  extension (dir ++ base ++ "." ++ e) = "." ++ lower e.
Proof.
  intros Hdir Hbase Hdots He Hdot. unfold extension.
  rewrite splitext_with_extension by done. by rewrite Hdots.
Qed.

(** X13.  The file name decides the tag.  For a path made of an optional
    directory prefix, a file name [BASE.E] where [E] has no dot and [BASE]
    is not made of dots only: [render] gives the script tag when [E] is
    [js] in any letter case, the stylesheet link when [E] is [css] in any
    letter case, and raises [UnsupportedExtensionError] with the path for
    every other [E]. *)
Theorem render_by_file_name (name dir base e : string) :
  is_dirname dir →
  occurs "/" base = false → all_dots base = false →
  occurs "/" e = false → occurs "." e = false →
  let p := dir ++ base ++ "." ++ e in
  ManifestEntry.render (ManifestEntry name (VList [VStr p]))
  = if String.eqb (lower e) "js" then Ok (script_tag p)
    else if String.eqb (lower e) "css" then Ok (link_tag p)
    else Raise (UnsupportedExtensionError p).
Proof.
  intros Hdir Hbase Hdots He Hdot p. rewrite render_single.
  pose proof (extension_with_extension dir base e Hdir Hbase Hdots He Hdot) as Hext.
  fold p in Hext. unfold mapped, tag. rewrite Hext.
  change ("." ++ lower e) with (String "." (lower e)).
  destruct (String.eqb_spec (lower e) "js") as [->|Hjs].
  { rewrite decide_True by (by left). done. }
  destruct (String.eqb_spec (lower e) "css") as [->|Hcss].
  { rewrite decide_True by (by right). done. }
  rewrite decide_False; [done|]. intros [[=]|[=]]; done.
Qed.

Lemma render_by_file_name_witness :
  ManifestEntry.render (ManifestEntry "app" (VList [VStr "/static/js/app.min.JS"]))
  = Ok (script_tag "/static/js/app.min.JS")
  ∧ ManifestEntry.render (ManifestEntry "app" (VList [VStr "app.css.map"]))
    = Raise (UnsupportedExtensionError "app.css.map").
Proof.
  split.
  - apply (render_by_file_name "app" "/static/js/" "app.min" "JS");
      [right; by exists "/static/js" | reflexivity..].
  - apply (render_by_file_name "app" EmptyString "app.css" "map");
      [by left | reflexivity..].
Defined.

(** X14.  A path without extension cannot be rendered: when the file name
    has no dot ([README], [v1.2/README]), or is a dot file such as
    [.htaccess] (dots, then a name without dot), [render] raises
    [UnsupportedExtensionError] with the path. *)
Theorem render_without_extension (name dir dots rest : string) :
  is_dirname dir →
  all_dots dots = true →
  occurs "/" rest = false → occurs "." rest = false →
  let p := dir ++ dots ++ rest in
  ManifestEntry.render (ManifestEntry name (VList [VStr p]))
  = Raise (UnsupportedExtensionError p).
Proof.
  intros Hdir Hdots Hsep Hdot p. rewrite render_single.
  assert (Hext : extension p = EmptyString).
  { unfold extension, p. clear p.
    destruct (string_dec dots EmptyString) as [->|Hne].
    { by rewrite splitext_without_dot. }
    assert (∃ front, dots = front ++ "." ∧ all_dots front = true)
      as (front & -> & Hfront).
    { revert Hne Hdots. induction dots as [|c s IHs]; [done|].
      intros _ [Hc Hs]%andb_true_iff. apply Ascii.eqb_eq in Hc as ->.
      destruct (string_dec s EmptyString) as [->|Hs'].
      - by exists EmptyString.
      - destruct (IHs Hs' Hs) as (front & -> & Hfront).
        exists (String "." front). by rewrite append_cons. }
    rewrite append_assoc.
    assert (Hsepfront : occurs "/" front = false).
    { clear -Hfront. induction front as [|c s IHs]; [done|].
      simpl in *. apply andb_true_iff in Hfront as [Hc Hs].
      apply Ascii.eqb_eq in Hc as ->. by rewrite IHs. }
    rewrite (splitext_with_extension dir front rest) by done.
    by rewrite Hfront. }
  rewrite decide_False; [done|]. unfold mapped. rewrite Hext. by intros [|].
Qed.

Lemma render_without_extension_witness :
  ManifestEntry.render (ManifestEntry "doc" (VList [VStr "v1.2/README"]))
  = Raise (UnsupportedExtensionError "v1.2/README")
  ∧ ManifestEntry.render (ManifestEntry "conf" (VList [VStr "/etc/.htaccess"]))
    = Raise (UnsupportedExtensionError "/etc/.htaccess").
Proof.
  split.
  - apply (render_without_extension "doc" "v1.2/" EmptyString "README");
      [right; by exists "v1.2" | reflexivity..].
  - apply (render_without_extension "conf" "/etc/" "." "htaccess");
      [right; by exists "/etc" | reflexivity..].
Defined.

Lemma render_path_acc (v : value) (out : list string) :
  ManifestEntry.render_path v out
  = (λ o, out ++ o)%list <$> ManifestEntry.render_path v [].
Proof.
  destruct v as [| | | |p| |]; try done.
  unfold ManifestEntry.render_path. destruct (splitext p) as [dummy_name ext].
  by destruct (dict_get (lower ext) ManifestEntry.templates).
Qed.

Lemma render_loop_acc (vs : list value) (out : list string) :
  for_each ManifestEntry.render_path vs out
  = (λ o, out ++ o)%list <$> for_each ManifestEntry.render_path vs [].
Proof.
  revert out. induction vs as [|v vs IH]; intros out; cbn [for_each].
  - simpl. by rewrite app_nil_r.
  - rewrite (render_path_acc v out).
    destruct (ManifestEntry.render_path v []) as [o|e]; [|done].
    simpl fmap. rewrite !bind_Ok, (IH (out ++ o)%list), (IH o).
    destruct (for_each ManifestEntry.render_path vs []) as [o'|e]; [|done].
    simpl. by rewrite app_assoc.
Qed.

Lemma join_app (out1 out2 : list string) :
  join (out1 ++ out2) = join out1 ++ join out2.
Proof.
  unfold join. induction out1 as [|s out1 IH]; [done|].
  simpl. by rewrite IH, append_assoc.
Qed.

(** X15.  Rendering goes path by path: for an entry whose paths are a
    list, the rendering of the list [vs1 ++ vs2] is the rendering of [vs1]
    followed by the rendering of [vs2], and fails as the first of the two
    that fails; the name of the entry plays no part. *)
Theorem render_app (name name1 name2 : string) (vs1 vs2 : list value) :
  ManifestEntry.render (ManifestEntry name (VList (vs1 ++ vs2)))
  = s1 ← ManifestEntry.render (ManifestEntry name1 (VList vs1));
    s2 ← ManifestEntry.render (ManifestEntry name2 (VList vs2));
    Ok (s1 ++ s2).
Proof.
  unfold ManifestEntry.render. cbn [ManifestEntry._paths iter].
  rewrite !bind_Ok, for_each_app.
  destruct (for_each ManifestEntry.render_path vs1 []) as [o1|e1]; [|done].
  rewrite !bind_Ok, (render_loop_acc vs2 o1).
  destruct (for_each ManifestEntry.render_path vs2 []) as [o2|e2]; [|done].
  simpl fmap. rewrite !bind_Ok. by rewrite join_app.
Qed.




(** X17.  [render] raises [TypeError], and renders nothing, when the paths
    of the entry are not iterable (null, a boolean, a number), and when,
    in a list of paths, the first element that is not a string with a
    [.js] or [.css] extension is not a string at all, as happens with a
    bundle-tracker descriptor whose ['publicPath'] is not a string. *)
Theorem render_TypeError (name : string) :
  (∀ paths, iterable paths = false →
            ManifestEntry.render (ManifestEntry name paths) = Raise TypeError)
  ∧ (∀ pre v post, Forall mapped pre → isinstance_str v = false →
                   ManifestEntry.render
                     (ManifestEntry name (VList ((VStr <$> pre) ++ v :: post)))
                   = Raise TypeError).
Proof.
  split.
  - intros paths Hpaths. by destruct paths.
  - intros pre v post Hpre Hv. unfold ManifestEntry.render.
    cbn [ManifestEntry._paths iter].
    rewrite bind_Ok, for_each_app, render_loop_mapped by done.
    rewrite bind_Ok. cbn [for_each]. by destruct v.
Qed.

Lemma render_TypeError_witness :
  ManifestEntry.render (ManifestEntry "app" VNone) = Raise TypeError
  ∧ ∃ m, WebpackBundleTrackerFactory.create
           (VDict [("status", VStr "done");
                   ("chunks",
                    VDict [("app", VList [VDict [("publicPath", VStr "app.js")];
                                          VDict [("publicPath", VNone)]])])])
         = Ok m
         ∧ Manifest.__getitem__ m "app" ≫= ManifestEntry.render = Raise TypeError.
Proof.
  destruct (render_TypeError "app") as [Hscalar Hlist]. split.
  - by apply Hscalar.
  - eexists. split; [reflexivity|].
    apply (Hlist ["app.js"] VNone []); [|reflexivity].
    constructor; [by left | constructor].
Defined.

(** ** Order of the keys, unfinished builds *)

Lemma dict_get_unique {V} (key : string) (v : V) (d : list (string * V)) :
  NoDup (keys d) → (key, v) ∈ d → dict_get key d = Some v.
Proof.
  induction d as [|[k x] d IH]; [by intros _ ?%elem_of_nil|].
  rewrite keys_cons, NoDup_cons. intros [Hk Hd] [[= <- <-]|Hin]%elem_of_cons.
  - cbn [dict_get]. by rewrite String.eqb_refl.
  - cbn [dict_get]. destruct (String.eqb_spec k key) as [->|Hne]; [|auto].
    exfalso. apply Hk. apply list_elem_of_fmap. by exists (key, v).
Qed.

Lemma dict_get_Permutation {V} (key : string) (d d' : list (string * V)) :
  NoDup (keys d) → d ≡ₚ d' → dict_get key d = dict_get key d'.
Proof.
  intros Hnd Hperm.
  assert (Hnd' : NoDup (keys d')) by (unfold keys; by rewrite <- Hperm).
  destruct (dict_get key d) as [v|] eqn:Hd.
  - symmetry. apply dict_get_unique; [done|].
    rewrite <- Hperm. by apply dict_get_elem_of.
  - symmetry. apply dict_get_None. apply dict_get_None in Hd.
    unfold keys in *. by rewrite <- Hperm.
Qed.

(** X18.  The flat factory does not depend on the order in which the JSON
    object lists its keys: two objects with the same items in different
    orders give the same result, the same manifest or the same
    [InvalidManifestError]. *)
Theorem flat_create_order_independent (d d' : list (string * value)) :
  NoDup (keys d) → d ≡ₚ d' →
  WebpackManifestFactory.create (VDict d) = WebpackManifestFactory.create (VDict d').
Proof.
  intros Hnd Hperm.
  assert (Hnd' : NoDup (keys d')) by (unfold keys; by rewrite <- Hperm).
  destruct (decide (Forall (λ kv, isinstance_str kv.2 = true) d)) as [Hall|Hex].
  - destruct (flat_create_ok d) as (m & -> & Hlook); [done..|].
    destruct (flat_create_ok d') as (m' & -> & Hlook'); [done|by rewrite <- Hperm|].
    destruct m as [entries], m' as [entries']. f_equal. f_equal. simpl in *.
    apply map_eq. intros k.
    by rewrite Hlook, Hlook', (dict_get_Permutation k d d').
  - apply not_Forall_Exists in Hex; [|apply _].
    assert (Hex' : Exists (λ kv, isinstance_str kv.2 = false) d).
    { eapply Exists_impl; [exact Hex|]. intros [k v] Hv. simpl in *.
      by destruct (isinstance_str v). }
    rewrite flat_create_invalid by done.
    rewrite flat_create_invalid; [done|done|by rewrite <- Hperm].
Qed.

Lemma flat_create_order_independent_witness :
  WebpackManifestFactory.create
    (VDict [("app", VStr "app.js"); ("vendor", VStr "vendor.js")])
  = WebpackManifestFactory.create
      (VDict [("vendor", VStr "vendor.js"); ("app", VStr "app.js")]).
Proof.
  apply flat_create_order_independent; [compute_done|]. apply Permutation_swap.
Defined.

(** X19.  An unfinished yam build stops the loader: when the file holds an
    object without ['chunks'] that has ['status'] and ['files'], and
    ['files'] is null or the status is not ['built'],
    [ManifestLoader.load] raises [UnfinishedManifestError] with the whole
    document, and the flat factory is not consulted. *)
Theorem load_unfinished_yam
    (open_json : string → outcome value) (filepath : string)
    (d : list (string * value)) (status files : value) :
  open_json filepath = Ok (VDict d) →
  "chunks" ∉ keys d →
  dict_get "status" d = Some status →
  dict_get "files" d = Some files →
  files = VNone ∨ status ≠ VStr "built" →
  ManifestLoader.load open_json filepath = Raise (UnfinishedManifestError (VDict d))
  ∧ ∀ ts, ManifestLoader.try_types
            (WebpackBundleTrackerFactory.cls :: WebpackYamFactory.cls :: ts)
            (VDict d) filepath
          = Raise (UnfinishedManifestError (VDict d)).
Proof.
  intros Hopen Hchunks Hstatus Hfiles Hcond. rewrite (load_parsed _ _ _ Hopen).
  assert (Hts : ∀ ts, ManifestLoader.try_types
                        (WebpackBundleTrackerFactory.cls :: WebpackYamFactory.cls :: ts)
                        (VDict d) filepath
                      = Raise (UnfinishedManifestError (VDict d))).
  { intros ts. rewrite try_types_cons_caught, try_types_cons_through.
    - by apply (yam_create_unfinished d status files).
    - cbn [ManifestFactory.create WebpackYamFactory.cls].
      by rewrite (yam_create_unfinished d status files).
    - cbn [ManifestFactory.create WebpackBundleTrackerFactory.cls].
      rewrite tracker_create_invalid; [done|]. by right. }
  split; [apply Hts | exact Hts].
Qed.

Lemma load_unfinished_yam_witness :
  let data := VDict [("status", VStr "built"); ("files", VNone)] in
  ManifestLoader.load (λ _, Ok data) "manifest.json"
  = Raise (UnfinishedManifestError data).
Proof.
  intros data.
  by destruct (load_unfinished_yam (λ _, Ok data) "manifest.json"
                 [("status", VStr "built"); ("files", VNone)]
                 (VStr "built") VNone eq_refl)
    as [Hload _]; [compute_done | reflexivity | reflexivity | left |].
Defined.
